(** * errata-email-notifications: the watermark / filter / send state machine

    A shallow embedding of [errata-email-notifications.py] and the
    properties of its incremental delivery: which entries of a feed are
    mailed, in which order, and what the per-distribution watermark file
    holds afterwards.

    The outside world (the HTTP feed, the SMTP service, the disk and the
    lifetime of the process) is an oracle record [World]; [run] is a total
    function of the oracle, the environment and the file system. *)

From Stdlib Require Import ZArith Lia List Ascii String.
From Stdlib Require Import DecimalString DecimalZ DecimalPos.
From stdpp Require Import base option list strings gmap sorting.

Local Open Scope string_scope.
Local Open Scope list_scope.
Local Open Scope Z_scope.

(** ** Python built-ins used by the script *)

Module Py.

(** [str(ts)] for an integer: its decimal text. *)
Definition str (z : Z) : string := NilZero.string_of_int (Z.to_int z).

(** The characters [int()] and [str.strip] treat as white space (ASCII). *)
Definition is_space (a : ascii) : bool :=
  let n := nat_of_ascii a in
  ((9 <=? n)%nat && (n <=? 13)%nat) || ((28 <=? n)%nat && (n <=? 32)%nat).

Fixpoint lstrip (s : string) : string :=
  match s with
  | String a r => if is_space a then lstrip r else s
  | EmptyString => EmptyString
  end.

Fixpoint rstrip (s : string) : string :=
  match s with
  | String a r =>
      match rstrip r with
      | EmptyString => if is_space a then EmptyString else String a EmptyString
      | r' => String a r'
      end
  | EmptyString => EmptyString
  end.

Definition strip (s : string) : string := rstrip (lstrip s).

(** [int(s)]: [None] stands for [ValueError].  White space around the
    number and a leading sign are accepted, as in Python; digit-group
    underscores are not modelled. *)
Definition int (s : string) : option Z :=
  match strip s with
  | String a r =>
      if Ascii.eqb a "+" then Z.of_uint <$> NilZero.uint_of_string r
      else Z.of_int <$> NilZero.int_of_string (String a r)
  | EmptyString => None
  end.

(** [f.readline()] on a text file holding [s]: the first line, its
    terminator (LF, CR or CRLF) rendered as one LF. *)
Fixpoint readline (s : string) : string :=
  match s with
  | EmptyString => EmptyString
  | String a r =>
      if (Ascii.eqb a "010" || Ascii.eqb a "013")%bool
      then String "010" EmptyString
      else String a (readline r)
  end.

Definition to_upper (a : ascii) : ascii :=
  let n := nat_of_ascii a in
  if ((97 <=? n)%nat && (n <=? 122)%nat)%bool then ascii_of_nat (n - 32) else a.

Definition to_lower (a : ascii) : ascii :=
  let n := nat_of_ascii a in
  if ((65 <=? n)%nat && (n <=? 90)%nat)%bool then ascii_of_nat (n + 32) else a.

Fixpoint lower (s : string) : string :=
  match s with
  | String a r => String (to_lower a) (lower r)
  | EmptyString => EmptyString
  end.

(** [s.capitalize()], on ASCII letters. *)
Definition capitalize (s : string) : string :=
  match s with
  | String a r => String (to_upper a) (lower r)
  | EmptyString => EmptyString
  end.

(** [string.Template]: literal text and [$name] placeholders. *)
Inductive piece := Lit (s : string) | Var (name : string).
Definition Template := list piece.

Fixpoint lookup_kw (name : string) (kw : list (string * string)) : option string :=
  match kw with
  | [] => None
  | (k, v) :: kw' => if String.eqb k name then Some v else lookup_kw name kw'
  end.

(** [t.substitute] with keyword arguments [kw]; [None] stands for
    [KeyError]. *)
Fixpoint substitute (t : Template) (kw : list (string * string)) : option string :=
  match t with
  | [] => Some EmptyString
  | Lit s :: t' => (fun r => s +:+ r) <$> substitute t' kw
  | Var x :: t' =>
      match lookup_kw x kw with
      | Some v => (fun r => v +:+ r) <$> substitute t' kw
      | None => None
      end
  end.

(** [datetime.utcfromtimestamp(secs).strftime('%Y-%m-%d')] for a whole
    number of days since 1970-01-01 (proleptic Gregorian calendar). *)
Definition civil_from_days (days : Z) : Z * Z * Z :=
  let z := days + 719468 in
  let era := z / 146097 in
  let doe := z - era * 146097 in
  let yoe := (doe - doe / 1460 + doe / 36524 - doe / 146096) / 365 in
  let doy := doe - (365 * yoe + yoe / 4 - yoe / 100) in
  let mp := (5 * doy + 2) / 153 in
  let d := doy - (153 * mp + 2) / 5 + 1 in
  let m := if mp <? 10 then mp + 3 else mp - 9 in
  let y := yoe + era * 400 + (if m <=? 2 then 1 else 0) in
  (y, m, d).

Definition two_digits (n : Z) : string :=
  if n <? 10 then "0" +:+ str n else str n.

Definition strftime_Ymd (ymd : Z * Z * Z) : string :=
  let '(y, m, d) := ymd in
  str y +:+ "-" +:+ two_digits m +:+ "-" +:+ two_digits d.

End Py.

(** ** Data model *)

(** One element of an entry's [references] list. *)
Record Reference := { ref_id : string; ref_href : string }.

(** One object of the feed's JSON array; [updated_date] is the integer
    under [updated_date.$date] (milliseconds since the epoch). *)
Record Errata := {
  type_ : string;
  title : string;
  severity : string;
  description : string;
  updateinfo_id : string;
  updated_date : Z;
  references : list Reference
}.

(** The [EmailMessage] handed to the SMTP session. *)
Record EmailMessage := {
  msg_From : string;
  msg_To : string;
  msg_Subject : string;
  msg_content : string
}.

(** A file is named by the directory it lives in and its name: the
    relative path [name] denotes [(cwd, name)], and
    [os.path.join(BASEPATH, name)] denotes [(BASEPATH, name)], where
    [BASEPATH] is the directory of the script. *)
Abbreviation path := (string * string)%type.

(** ** Module constants *)

Definition DISTRIBUTIONS_ERRATA_URL : gmap string string :=
  <["almalinux-8" := "https://errata.almalinux.org/8/errata.json"]>
  (<["almalinux-9" := "https://errata.almalinux.org/9/errata.json"]> ∅).

Definition EMAIL_FROM_NAME : string := "AlmaLinux Errata Notifications".

Definition SUBJECT_TEMPLATE : Py.Template :=
  [Py.Lit "["; Py.Var "errata_type"; Py.Lit " Advisory] "; Py.Var "errata_title"].

Definition LF : string := String "010" EmptyString.

Definition CONTENT_TEMPLATE : Py.Template :=
  [Py.Lit "Hi, you are receiving an AlmaLinux "; Py.Var "errata_type";
   Py.Lit " update email because you subscribed to receive errata notifications from AlmaLinux.";
   Py.Lit LF; Py.Lit LF;
   Py.Lit "Type: "; Py.Var "errata_type"; Py.Lit LF;
   Py.Lit "Severity: "; Py.Var "errata_severity"; Py.Lit LF;
   Py.Lit "Release date: "; Py.Var "errata_date"; Py.Lit LF; Py.Lit LF;
   Py.Lit "Summary:"; Py.Lit LF; Py.Lit LF;
   Py.Var "errata_description"; Py.Lit LF; Py.Lit LF;
   Py.Lit "Full details, updated packages, references, and other related information: ";
   Py.Var "errata_link"; Py.Lit LF; Py.Lit LF;
   Py.Lit "This message is automatically generated, please donâ€™t reply. For further questions, please, contact us via the AlmaLinux community chat: https://chat.almalinux.org/.";
   Py.Lit LF;
   Py.Lit "Want to change your notification settings? Sign in and manage mailing lists on https://lists.almalinux.org.";
   Py.Lit LF; Py.Lit LF;
   Py.Lit "Kind regards,"; Py.Lit LF;
   Py.Lit "AlmaLinux team"; Py.Lit LF].

(** ** The outside world *)

(** What happens at a call that leaves the process: it completes, it
    raises, or the process is killed before the call is made. *)
Inductive outcome := Done | Raises | Dies.

Record World := {
  (** [json.loads(request.urlopen(url).read())]; [None]: any exception. *)
  urlopen_json : string -> option (list Errata);
  (** the [n]-th call of [send_message] in this process *)
  smtp_outcome : nat -> outcome;
  (** the [n]-th [open(..., 'w')] and write in this process; a write that
      raises does so at [open], leaving the file as it was *)
  write_outcome : nat -> outcome
}.

Record Env := {
  cwd : string;        (** working directory of the process *)
  BASEPATH : string;   (** [os.path.dirname(__file__)] *)
  sender : string;
  recipient : string
}.

(** ** Observable behaviour *)

Inductive level := DEBUG | INFO | WARNING | ERROR.

Inductive arg := AStr (s : string) | AInt (z : Z) | AMsg (m : EmailMessage).

(** [Send dist e m ok]: [send_message(m)] was called and returned
    ([ok = true]) or raised ([ok = false]); [dist] and [e] name the
    distribution and the entry [m] was rendered from. *)
Inductive Event :=
  | Log (l : level) (fmt : string) (args : list arg)
  | Send (dist : string) (e : Errata) (m : EmailMessage) (ok : bool)
  | SmtpQuit.

Inductive exn := KeyError | FileNotFoundError | ValueError | OSError | SMTPException.

(** How a computation ends: normally, with an exception on its way up, or
    with the process killed. *)
Inductive result (A : Type) := Return (a : A) | Raise (e : exn) | Killed.
Arguments Return {A} a.
Arguments Raise {A} e.
Arguments Killed {A}.

Record State := {
  fs : gmap path string;   (** the files and their text *)
  n_sent : nat;            (** calls of [send_message] so far *)
  n_written : nat          (** writes so far *)
}.

(** A computation emits events, changes the state and ends. *)
Definition M (A : Type) : Type := State -> list Event * State * result A.

Definition ret {A} (a : A) : M A := fun st => ([], st, Return a).

Definition bind {A B} (m : M A) (f : A -> M B) : M B := fun st =>
  match m st with
  | (evs, st', Return a) =>
      let '(evs', st'', r) := f a st' in (evs ++ evs', st'', r)
  | (evs, st', Raise e) => (evs, st', Raise e)
  | (evs, st', Killed) => (evs, st', Killed)
  end.

Definition raise {A} (e : exn) : M A := fun st => ([], st, Raise e).

(** [try: body except: handler] with a bare [except]. *)
Definition try_except (body handler : M unit) : M unit := fun st =>
  match body st with
  | (evs, st', Raise _) =>
      let '(evs', st'', r) := handler st' in (evs ++ evs', st'', r)
  | other => other
  end.

Notation "x <- m ;; k" := (bind m (fun x => k))
  (at level 100, m at next level, right associativity).
Notation "m ;;; k" := (bind m (fun _ => k))
  (at level 100, right associativity).

(** [for x in xs: body(x)] *)
Fixpoint for_each {A} (xs : list A) (body : A -> M unit) : M unit :=
  match xs with
  | [] => ret tt
  | x :: xs' => body x ;;; for_each xs' body
  end.

Definition logging (l : level) (fmt : string) (args : list arg) : M unit :=
  fun st => ([Log l fmt args], st, Return tt).

Definition of_option {A} (e : exn) (o : option A) : M A :=
  match o with Some a => ret a | None => raise e end.

(** ** The script *)

(** [sorted(data, key=lambda x: x['updated_date']['$date'], reverse=True)]:
    the stable sort by decreasing [updated_date]. *)
Fixpoint insert_desc (x : Errata) (l : list Errata) : list Errata :=
  match l with
  | [] => [x]
  | y :: l' =>
      if updated_date x <? updated_date y then y :: insert_desc x l' else x :: l
  end.

Definition sorted_desc (data : list Errata) : list Errata :=
  foldr insert_desc [] data.

(** [ErrataEmailNotifications.ts_to_date] *)
Definition ts_to_date (ts : Z) : string :=
  Py.strftime_Ymd (Py.civil_from_days (ts / 86400000)).

(** [ErrataEmailNotifications.get_almalinux_errata_href]: the loop over
    [errata['references']] with its [break]. *)
Fixpoint href_loop (id : string) (refs : list Reference) (href : string) : string :=
  match refs with
  | [] => href
  | ref :: refs' =>
      if String.eqb (ref_id ref) id then ref_href ref else href_loop id refs' href
  end.

Definition get_almalinux_errata_href (errata : Errata) : string :=
  href_loop (updateinfo_id errata) (references errata) "".

Definition subject_kw (errata : Errata) : list (string * string) :=
  [("errata_type", Py.capitalize (type_ errata));
   ("errata_title", title errata)].

Definition content_kw (errata : Errata) : list (string * string) :=
  [("errata_type", Py.capitalize (type_ errata));
   ("errata_severity", Py.capitalize (severity errata));
   ("errata_date", ts_to_date (updated_date errata));
   ("errata_description", description errata);
   ("errata_link", get_almalinux_errata_href errata)].

(** The comprehension
    [[x for x in errata_data if x['updated_date']['$date'] > int(last_processed_ts)]];
    [int] is evaluated at each element, so an unreadable watermark raises
    as soon as there is one. *)
Definition new_erratas_of (errata_data : list Errata) (last_processed_ts : string)
  : option (list Errata) :=
  match errata_data with
  | [] => Some []
  | _ =>
      wm ← Py.int last_processed_ts;
      Some (filter (fun x => wm < updated_date x) errata_data)
  end.

Definition last_processed_ts_file (dist : string) : string :=
  dist +:+ "_last_processed_ts".

Section Script.

Context (w : World) (env : Env).

(** [os.path.exists(name)] for a relative [name] *)
Definition os_path_exists (name : string) : M bool := fun st =>
  ([], st, Return (bool_decide (is_Some (fs st !! (cwd env, name))))).

(** [with open(os.path.join(BASEPATH, name), 'r') as f: f.readline()] *)
Definition open_readline (name : string) : M string := fun st =>
  match fs st !! (BASEPATH env, name) with
  | Some text => ([], st, Return (Py.readline text))
  | None => ([], st, Raise FileNotFoundError)
  end.

(** [with open(os.path.join(BASEPATH, name), 'w') as f: f.write(text)] *)
Definition open_write (name text : string) : M unit := fun st =>
  match write_outcome w (n_written st) with
  | Done =>
      ([], {| fs := <[(BASEPATH env, name) := text]> (fs st);
              n_sent := n_sent st; n_written := S (n_written st) |}, Return tt)
  | Raises =>
      ([], {| fs := fs st; n_sent := n_sent st; n_written := S (n_written st) |},
       Raise OSError)
  | Dies => ([], st, Killed)
  end.

(** [SMTPSession.send] *)
Definition smtp_send (dist : string) (errata : Errata) (msg : EmailMessage) : M unit :=
  logging DEBUG "SMTPSession::send_email: %s" [AMsg msg] ;;;
  fun st =>
    match smtp_outcome w (n_sent st) with
    | Done =>
        ([Send dist errata msg true],
         {| fs := fs st; n_sent := S (n_sent st); n_written := n_written st |},
         Return tt)
    | Raises =>
        ([Send dist errata msg false],
         {| fs := fs st; n_sent := S (n_sent st); n_written := n_written st |},
         Raise SMTPException)
    | Dies => ([], st, Killed)
    end.

(** [SMTPSession.close] *)
Definition smtp_close : M unit := fun st => ([SmtpQuit], st, Return tt).

(** [ErrataEmailNotifications.fetch_errata_data] *)
Definition fetch_errata_data (url : string) : M (option (list Errata)) :=
  logging DEBUG "Fetching errata data from %s" [AStr url] ;;;
  ret (sorted_desc <$> urlopen_json w url).

(** [ErrataEmailNotifications.save_last_processed_ts] *)
Definition save_last_processed_ts (file_to_write : string) (ts : Z) : M unit :=
  open_write file_to_write (Py.str ts) ;;;
  logging INFO "Updated %s with timestamp %s" [AStr file_to_write; AInt ts].

(** The body of [for errata in reversed(new_erratas)]. *)
Definition notify (dist file : string) (errata : Errata) : M unit :=
  email_subject <- of_option KeyError (Py.substitute SUBJECT_TEMPLATE (subject_kw errata)) ;;
  email_body <- of_option KeyError (Py.substitute CONTENT_TEMPLATE (content_kw errata)) ;;
  let msg := {| msg_From := EMAIL_FROM_NAME +:+ " <" +:+ sender env +:+ ">";
                msg_To := recipient env;
                msg_Subject := email_subject;
                msg_content := email_body |} in
  try_except
    (smtp_send dist errata msg ;;;
     save_last_processed_ts file (updated_date errata))
    (logging ERROR "Could not send errata notification email" []).

(** The body of [for dist in self.distributions]; each [continue] ends it. *)
Definition process (dist : string) : M unit :=
  match DISTRIBUTIONS_ERRATA_URL !! dist with
  | None => logging WARNING "Skipping %s as it is not a valid distribution" [AStr dist]
  | Some errata_json_url =>
      logging DEBUG "Processing erratas for distribution %s" [AStr dist] ;;;
      errata_data <- fetch_errata_data errata_json_url ;;
      match errata_data with
      | None | Some [] =>
          logging WARNING "Could not fetch errata file for %s, skipping" [AStr dist]
      | Some ((newest :: _) as errata_data) =>
          let file := last_processed_ts_file dist in
          found <- os_path_exists file ;;
          if negb found then
            save_last_processed_ts file (updated_date newest) ;;;
            logging WARNING
              "Skipping notifications for %s as it looks like is the first time this script is running"
              [AStr dist]
          else
            last_processed_ts <- open_readline file ;;
            new_erratas <- of_option ValueError (new_erratas_of errata_data last_processed_ts) ;;
            logging DEBUG "Found %d new erratas for %s distribution"
              [AInt (Z.of_nat (length new_erratas)); AStr dist] ;;;
            for_each (reverse new_erratas) (notify dist file)
      end
  end.

(** [ErrataEmailNotifications.run] *)
Definition run (distributions : list string) : M unit :=
  for_each distributions process ;;;
  smtp_close.

End Script.

(** A fresh process over the files [files]. *)
Definition start (files : gmap path string) : State :=
  {| fs := files; n_sent := 0; n_written := 0 |}.

(** ** Reading a trace *)

Definition events {A} (x : list Event * State * result A) : list Event := x.1.1.
Definition files_after {A} (x : list Event * State * result A) : gmap path string := fs x.1.2.
Definition ending {A} (x : list Event * State * result A) : result A := x.2.

Definition attempt_of (dist : string) (ev : Event) : option (Errata * bool) :=
  match ev with
  | Send d e _ ok => if String.eqb d dist then Some (e, ok) else None
  | _ => None
  end.

(** The entries of [dist] for which [send_message] was called, in order,
    each with whether the call returned. *)
Definition attempts (dist : string) (evs : list Event) : list (Errata * bool) :=
  omap (attempt_of dist) evs.

Definition save_of (file : string) (ev : Event) : option Z :=
  match ev with
  | Log INFO _ [AStr f; AInt ts] => if String.eqb f file then Some ts else None
  | _ => None
  end.

(** The timestamps [save_last_processed_ts] wrote for [dist], in order
    (it logs each completed write). *)
Definition saves (dist : string) (evs : list Event) : list Z :=
  omap (save_of (last_processed_ts_file dist)) evs.

Definition delivery_of (ev : Event) : option EmailMessage :=
  match ev with
  | Send _ _ m true => Some m
  | _ => None
  end.

(** The messages that were delivered, whatever the distribution. *)
Definition delivered (evs : list Event) : list EmailMessage :=
  omap delivery_of evs.

(** The persisted watermark of [dist]: what the next run would read. *)
Definition watermark (env : Env) (files : gmap path string) (dist : string) : option Z :=
  text ← files !! (BASEPATH env, last_processed_ts_file dist);
  Py.int (Py.readline text).

(** The existence check of [run] finds the watermark file of [dist]. *)
Definition visible (env : Env) (files : gmap path string) (dist : string) : Prop :=
  is_Some (files !! (cwd env, last_processed_ts_file dist)).

(** The message rendered for an entry. *)
Definition render (t : Py.Template) (kw : list (string * string)) : string :=
  default "" (Py.substitute t kw).

Definition message (env : Env) (errata : Errata) : EmailMessage :=
  {| msg_From := EMAIL_FROM_NAME +:+ " <" +:+ sender env +:+ ">";
     msg_To := recipient env;
     msg_Subject := render SUBJECT_TEMPLATE (subject_kw errata);
     msg_content := render CONTENT_TEMPLATE (content_kw errata) |}.

(** The entries [run] sets out to send when the watermark reads [wm]:
    [reversed(new_erratas)]. *)
Definition todo (wm : Z) (data : list Errata) : list Errata :=
  reverse (filter (fun x => wm < updated_date x) (sorted_desc data)).


(** ** Names for what the script logs and for the states it goes through *)

Definition bump_sent (st : State) : State :=
  {| fs := fs st; n_sent := S (n_sent st); n_written := n_written st |}.

Definition bump_both (st : State) : State :=
  {| fs := fs st; n_sent := S (n_sent st); n_written := S (n_written st) |}.

Definition saved_state (env : Env) (file : string) (ts : Z) (st : State) : State :=
  {| fs := <[(BASEPATH env, file) := Py.str ts]> (fs st);
     n_sent := S (n_sent st); n_written := S (n_written st) |}.

Definition dbg_send (env : Env) (errata : Errata) : Event :=
  Log DEBUG "SMTPSession::send_email: %s" [AMsg (message env errata)].

Definition log_updated (file : string) (ts : Z) : Event :=
  Log INFO "Updated %s with timestamp %s" [AStr file; AInt ts].

Definition log_could_not_send : Event :=
  Log ERROR "Could not send errata notification email" [].

Definition preamble (dist url : string) : list Event :=
  [Log DEBUG "Processing erratas for distribution %s" [AStr dist];
   Log DEBUG "Fetching errata data from %s" [AStr url]].

Definition warn_unknown (dist : string) : Event :=
  Log WARNING "Skipping %s as it is not a valid distribution" [AStr dist].

Definition warn_no_data (dist : string) : Event :=
  Log WARNING "Could not fetch errata file for %s, skipping" [AStr dist].

Definition warn_first_time (dist : string) : Event :=
  Log WARNING
    "Skipping notifications for %s as it looks like is the first time this script is running"
    [AStr dist].

Definition log_found (dist : string) (n : nat) : Event :=
  Log DEBUG "Found %d new erratas for %s distribution" [AInt (Z.of_nat n); AStr dist].

Definition written_state (env : Env) (file : string) (ts : Z) (st : State) : State :=
  {| fs := <[(BASEPATH env, file) := Py.str ts]> (fs st);
     n_sent := n_sent st; n_written := S (n_written st) |}.

Definition bump_written (st : State) : State :=
  {| fs := fs st; n_sent := n_sent st; n_written := S (n_written st) |}.

(** The loop [for errata in reversed(new_erratas)] over the entries [l]. *)
Definition send_loop (w : World) (env : Env) (dist : string) (l : list Errata) : M unit :=
  for_each l (notify w env dist (last_processed_ts_file dist)).

(** The entries whose [send_message] returned. *)
Definition sent_ok (a : list (Errata * bool)) : list Errata :=
  omap (fun p : Errata * bool => if p.2 then Some p.1 else None) a.

(** The loop [for dist in self.distributions]. *)
Definition passes (w : World) (env : Env) (ds : list string) : M unit :=
  for_each ds (process w env).

(** ** Vocabulary of the properties *)

(** What the loop leaves behind. *)
Record loop_facts (env : Env) (dist : string) (l : list Errata) (st : State)
    (x : list Event * State * result unit) : Prop := {
  lf_ending : ending x = Return tt \/ ending x = Killed;
  lf_prefix : (attempts dist (events x)).*1 `prefix_of` l;
  lf_all : ending x = Return tt -> (attempts dist (events x)).*1 = l;
  lf_saves : saves dist (events x) `sublist_of`
               (updated_date <$> sent_ok (attempts dist (events x)));
  lf_files : files_after x =
               match last (saves dist (events x)) with
               | Some ts => <[(BASEPATH env, last_processed_ts_file dist) := Py.str ts]> (fs st)
               | None => fs st
               end;
  lf_other : forall d, d <> dist ->
               attempts d (events x) = [] /\ saves d (events x) = [];
  lf_delivered : delivered (events x) =
                   message env <$> sent_ok (attempts dist (events x))
}.

(** How [process] handles a distribution, case by case. *)
Inductive pass (w : World) (env : Env) (dist : string) (st : State)
  : list Event * State * result unit -> Prop :=
  | pass_unknown :
      DISTRIBUTIONS_ERRATA_URL !! dist = None ->
      pass w env dist st ([warn_unknown dist], st, Return tt)
  | pass_no_data url :
      DISTRIBUTIONS_ERRATA_URL !! dist = Some url ->
      urlopen_json w url = None \/ urlopen_json w url = Some [] ->
      pass w env dist st (preamble dist url ++ [warn_no_data dist], st, Return tt)
  | pass_first_time url data newest rest :
      DISTRIBUTIONS_ERRATA_URL !! dist = Some url ->
      urlopen_json w url = Some data ->
      sorted_desc data = newest :: rest ->
      fs st !! (cwd env, last_processed_ts_file dist) = None ->
      pass w env dist st
        match write_outcome w (n_written st) with
        | Done =>
            (preamble dist url ++
               [log_updated (last_processed_ts_file dist) (updated_date newest);
                warn_first_time dist],
             written_state env (last_processed_ts_file dist) (updated_date newest) st,
             Return tt)
        | Raises => (preamble dist url, bump_written st, Raise OSError)
        | Dies => (preamble dist url, st, Killed)
        end
  | pass_stuck url data newest rest e :
      DISTRIBUTIONS_ERRATA_URL !! dist = Some url ->
      urlopen_json w url = Some data ->
      sorted_desc data = newest :: rest ->
      visible env (fs st) dist ->
      watermark env (fs st) dist = None ->
      pass w env dist st (preamble dist url, st, Raise e)
  | pass_ready url data newest rest wm :
      DISTRIBUTIONS_ERRATA_URL !! dist = Some url ->
      urlopen_json w url = Some data ->
      sorted_desc data = newest :: rest ->
      visible env (fs st) dist ->
      watermark env (fs st) dist = Some wm ->
      pass w env dist st
        (preamble dist url ++ log_found dist (length (todo wm data)) ::
           events (send_loop w env dist (todo wm data) st),
         (send_loop w env dist (todo wm data) st).1.2,
         ending (send_loop w env dist (todo wm data) st)).

(** What a pass that found and read the watermark leaves behind. *)
Record ready_pass (env : Env) (dist : string) (data : list Errata) (wm : Z)
    (st : State) (x : list Event * State * result unit) : Prop := {
  rp_prefix : (attempts dist (events x)).*1 `prefix_of` todo wm data;
  rp_all : ending x <> Killed ->
           ending x = Return tt /\ (attempts dist (events x)).*1 = todo wm data;
  rp_sorted : StronglySorted Z.le (saves dist (events x));
  rp_saved : forall t, t ∈ saves dist (events x) ->
             wm < t /\ exists e, (e, true) ∈ attempts dist (events x) /\ updated_date e = t;
  rp_watermark : watermark env (files_after x) dist
                 = Some (default wm (last (saves dist (events x))));
  rp_visible : visible env (files_after x) dist
}.

Definition newer_first (a b : Errata) : Prop := updated_date b <= updated_date a.
Definition older_first (a b : Errata) : Prop := updated_date a <= updated_date b.

(** The first element of the sorted feed carries the largest timestamp. *)
Definition is_max_updated (m : Z) (data : list Errata) : Prop :=
  (exists e, e ∈ data /\ updated_date e = m) /\
  (forall e, e ∈ data -> updated_date e <= m).

(** The body template up to [$errata_link], and after it. *)
Definition CONTENT_BEFORE_LINK : Py.Template := take 22 CONTENT_TEMPLATE.
Definition CONTENT_AFTER_LINK : Py.Template := drop 23 CONTENT_TEMPLATE.

Definition mentions (x : string) (p : Py.piece) : bool :=
  match p with Py.Var y => String.eqb y x | Py.Lit _ => false end.

(** Every message handed to the SMTP session is the rendering of its entry. *)
Definition well_rendered (env : Env) (ev : Event) : Prop :=
  match ev with
  | Send _ e m _ => m = message env e
  | _ => True
  end.

(** The watermark file is not where the existence check looks. *)
Definition unseen (env : Env) (dist : string) (files : gmap path string) : Prop :=
  files !! (cwd env, last_processed_ts_file dist) = None.

(** The watermark has been seeded with the newest timestamp, and the check
    either still misses it or looks at that very file. *)
Definition seeded (env : Env) (dist : string) (newest : Errata)
    (files : gmap path string) : Prop :=
  files !! (BASEPATH env, last_processed_ts_file dist)
    = Some (Py.str (updated_date newest)) /\
  (files !! (cwd env, last_processed_ts_file dist) = None \/ cwd env = BASEPATH env).


Definition all_done (w : World) (st : State) (n : nat) : Prop :=
  forall i, (i < n)%nat ->
    smtp_outcome w (n_sent st + i) = Done /\ write_outcome w (n_written st + i) = Done.

(** A pass over [d] has nothing to send: if the watermark is found and
    read, no entry of the feed is newer. *)
Definition quiet (feed : string -> option (list Errata)) (env : Env)
    (files : gmap path string) (d : string) : Prop :=
  forall url data v,
    DISTRIBUTIONS_ERRATA_URL !! d = Some url ->
    feed url = Some data ->
    visible env files d ->
    watermark env files d = Some v ->
    forall e, e ∈ data -> updated_date e <= v.

(** A pass over [d] raises: the file is found but cannot be read. *)
Definition stuck (feed : string -> option (list Errata)) (env : Env)
    (files : gmap path string) (d : string) : Prop :=
  exists url data newest rest,
    DISTRIBUTIONS_ERRATA_URL !! d = Some url /\
    feed url = Some data /\
    sorted_desc data = newest :: rest /\
    visible env files d /\
    watermark env files d = None.

(** A run over [ds] has nothing to send: it goes through quiet
    distributions until it ends or meets one on which it raises. *)
Inductive calm (feed : string -> option (list Errata)) (env : Env)
    (files : gmap path string) : list string -> Prop :=
  | calm_nil : calm feed env files []
  | calm_stuck d ds : stuck feed env files d -> calm feed env files (d :: ds)
  | calm_cons d ds :
      quiet feed env files d -> calm feed env files ds -> calm feed env files (d :: ds).

Fixpoint all_chars (P : ascii -> bool) (s : string) : bool :=
  match s with
  | String a r => P a && all_chars P r
  | EmptyString => true
  end.

Definition num_char (a : ascii) : bool :=
  let n := nat_of_ascii a in
  (Nat.eqb n 45 || ((48 <=? n)%nat && (n <=? 57)%nat))%bool.

(** ** The log level *)

(** The numeric value of a level, as in [logging]. *)
Definition levelno (l : level) : Z :=
  match l with DEBUG => 10 | INFO => 20 | WARNING => 30 | ERROR => 40 end.

(** [log_level = logging.DEBUG if args.verbose else logging.WARNING] *)
Definition log_level (verbose : bool) : level := if verbose then DEBUG else WARNING.

(** The record that reaches the log once [logging.basicConfig] has set
    the level of the root logger: those at or above it. *)
Definition log_line (verbose : bool) (ev : Event) : option (level * string * list arg) :=
  match ev with
  | Log l fmt args =>
      if levelno (log_level verbose) <=? levelno l then Some (l, fmt, args) else None
  | _ => None
  end.

(** What a run writes to the log. *)
Definition log_output (verbose : bool) (evs : list Event) : list (level * string * list arg) :=
  omap (log_line verbose) evs.

(** ** What a run may write *)


(** ** The calendar *)

Definition is_leap (y : Z) : bool :=
  ((y mod 4 =? 0) && negb (y mod 100 =? 0)) || (y mod 400 =? 0).

Definition days_in_month (y m : Z) : Z :=
  if m =? 2 then (if is_leap y then 29 else 28)
  else if (m =? 4) || (m =? 6) || (m =? 9) || (m =? 11) then 30
  else 31.

(** The number of days from 1970-01-01 to the civil date [y-m-d]. *)
Definition days_from_civil (ymd : Z * Z * Z) : Z :=
  let '(y, m, d) := ymd in
  let y' := if m <=? 2 then y - 1 else y in
  let era := y' / 400 in
  let yoe := y' - era * 400 in
  let mp := if m <=? 2 then m + 9 else m - 3 in
  let doy := (153 * mp + 2) / 5 + d - 1 in
  let doe := yoe * 365 + yoe / 4 - yoe / 100 + doy in
  era * 146097 + doe - 719468.

(** Reading a text [YYYY-MM-DD] back: its three numbers, and the day it
    names. *)
Definition date_fields (s : string) : option (Z * Z * Z) :=
  y ← Py.int (String.substring 0 4 s);
  m ← Py.int (String.substring 5 2 s);
  d ← Py.int (String.substring 8 2 s);
  Some (y, m, d).

Definition day_of_date (s : string) : option Z := days_from_civil <$> date_fields s.

(** [P] holds of [z], [z + 1], ..., [z + n - 1]. *)
Fixpoint all_from (P : Z -> bool) (z : Z) (n : nat) : bool :=
  match n with
  | O => true
  | S n' => P z && all_from P (z + 1) n'
  end.

(** The last timestamp [ts_to_date] is used for here: the end of the year
    9999, in milliseconds. *)
Definition TS_END : Z := 253402300800000.

(** ** Start-up: the SMTP session and the main block *)








(** * Scenarios *)

Module Scenario.

Definition entry (id : string) (ts : Z) : Errata :=
  {| type_ := "security"; title := id +:+ ": Important: kernel security update";
     severity := "important"; description := "An update for kernel is now available.";
     updateinfo_id := id; updated_date := ts;
     references :=
       [ {| ref_id := "CVE-2024-0001"; ref_href := "https://cve.example/CVE-2024-0001" |};
         {| ref_id := id; ref_href := "https://errata.almalinux.org/8/" +:+ id +:+ ".html" |};
         {| ref_id := id; ref_href := "https://mirror.example/" +:+ id |} ] |}.

Definition e100 : Errata := entry "ALSA-2024:0100" 100.
Definition e200 : Errata := entry "ALSA-2024:0200" 200.
Definition e300 : Errata := entry "ALSA-2024:0300" 300.

Definition feed (data : list Errata) (url : string) : option (list Errata) :=
  if String.eqb url "https://errata.almalinux.org/8/errata.json" then Some data else None.

(** Everything works. *)
Definition fine (data : list Errata) : World :=
  {| urlopen_json := feed data;
     smtp_outcome := fun _ => Done;
     write_outcome := fun _ => Done |}.

(** The script is started from its own directory. *)
Definition home : Env :=
  {| cwd := "/opt/errata"; BASEPATH := "/opt/errata";
     sender := "errata@example.org"; recipient := "announce@example.org" |}.

(** The script is started from elsewhere, say by cron. *)
Definition away : Env :=
  {| cwd := "/root"; BASEPATH := "/opt/errata";
     sender := "errata@example.org"; recipient := "announce@example.org" |}.

Definition d8 : string := "almalinux-8".

Definition with_watermark (dir : string) (text : string) : gmap path string :=
  <[(dir, last_processed_ts_file d8) := text]> ∅.

(** The first [send_message] raises. *)
Definition first_send_raises (data : list Errata) : World :=
  {| urlopen_json := feed data;
     smtp_outcome := fun n => match n with O => Raises | _ => Done end;
     write_outcome := fun _ => Done |}.





Definition url8 : string := "https://errata.almalinux.org/8/errata.json".






End Scenario.

(** * Properties *)

(** ** The built-ins on examples *)

Example str_150 : Py.str 150 = "150".
Proof. reflexivity. Qed.

Example int_150_newline : Py.int (Py.readline (String "1" (String "5" (String "0" (String "010" EmptyString))))) = Some 150.
Proof. reflexivity. Qed.

Example int_empty : Py.int "" = None.
Proof. reflexivity. Qed.

Example capitalize_security : Py.capitalize "security" = "Security".
Proof. reflexivity. Qed.

(** ** The monad and the loop body *)

Lemma bind_Return {A B} (m : M A) (f : A -> M B) st evs st' a :
  m st = (evs, st', Return a) ->
  bind m f st = (evs ++ events (f a st'), (f a st').1.2, ending (f a st')).
Proof.
  intros H. unfold bind, events, ending. rewrite H.
  destruct (f a st') as [[evs' st''] r]. reflexivity.
Qed.

Lemma bind_not_Return {A B} (m : M A) (f : A -> M B) st evs st' :
  (m st = (evs, st', Killed) -> bind m f st = (evs, st', Killed)) /\
  (forall e, m st = (evs, st', Raise e) -> bind m f st = (evs, st', Raise e)).
Proof. split; [intros H | intros e H]; unfold bind; rewrite H; reflexivity. Qed.

Lemma events_mk {A} evs st (r : result A) : events (evs, st, r) = evs.
Proof. reflexivity. Qed.

Lemma ending_mk {A} evs st (r : result A) : ending (evs, st, r) = r.
Proof. reflexivity. Qed.

Lemma files_after_mk {A} evs st (r : result A) : files_after (evs, st, r) = fs st.
Proof. reflexivity. Qed.

Lemma for_each_cons {A} (x : A) xs body st :
  for_each (x :: xs) body st = bind (body x) (fun _ => for_each xs body) st.
Proof. reflexivity. Qed.

Lemma subject_renders errata :
  Py.substitute SUBJECT_TEMPLATE (subject_kw errata)
  = Some (render SUBJECT_TEMPLATE (subject_kw errata)).
Proof. reflexivity. Qed.

Lemma content_renders errata :
  Py.substitute CONTENT_TEMPLATE (content_kw errata)
  = Some (render CONTENT_TEMPLATE (content_kw errata)).
Proof. reflexivity. Qed.

(** One pass of the loop body, by what the SMTP service and the disk do. *)
Lemma notify_eq w env dist file errata st :
  notify w env dist file errata st =
  match smtp_outcome w (n_sent st) with
  | Done =>
      match write_outcome w (n_written st) with
      | Done =>
          ([dbg_send env errata; Send dist errata (message env errata) true;
            log_updated file (updated_date errata)],
           saved_state env file (updated_date errata) st, Return tt)
      | Raises =>
          ([dbg_send env errata; Send dist errata (message env errata) true;
            log_could_not_send],
           bump_both st, Return tt)
      | Dies =>
          ([dbg_send env errata; Send dist errata (message env errata) true],
           bump_sent st, Killed)
      end
  | Raises =>
      ([dbg_send env errata; Send dist errata (message env errata) false;
        log_could_not_send],
       bump_sent st, Return tt)
  | Dies => ([dbg_send env errata], st, Killed)
  end.
Proof.
  unfold notify. rewrite subject_renders, content_renders.
  unfold of_option, bind, ret, try_except, smtp_send, save_last_processed_ts,
    open_write, logging, bind. cbn [n_sent n_written fs].
  destruct (smtp_outcome w (n_sent st)); [ | reflexivity | reflexivity].
  cbn [n_sent n_written fs].
  destruct (write_outcome w (n_written st)); reflexivity.
Qed.

(** ** File names *)

Lemma length_app_string (s t : string) :
  String.length (s +:+ t) = (String.length s + String.length t)%nat.
Proof. induction s as [|a s IH]; simpl; [reflexivity | now rewrite IH]. Qed.

Lemma app_string_inj_l (t : string) : forall s1 s2 : string, s1 +:+ t = s2 +:+ t -> s1 = s2.
Proof.
  induction s1 as [|a s1 IH]; intros [|b s2] H.
  - reflexivity.
  - apply (f_equal String.length) in H. rewrite !length_app_string in H. simpl in H. lia.
  - apply (f_equal String.length) in H. rewrite !length_app_string in H. simpl in H. lia.
  - injection H as -> H. f_equal. now apply IH.
Qed.

Lemma last_processed_ts_file_inj d1 d2 :
  last_processed_ts_file d1 = last_processed_ts_file d2 -> d1 = d2.
Proof. apply app_string_inj_l. Qed.

Lemma file_eqb_other d1 d2 :
  d1 <> d2 -> String.eqb (last_processed_ts_file d1) (last_processed_ts_file d2) = false.
Proof.
  intros H. apply String.eqb_neq. intros E. now apply H, last_processed_ts_file_inj.
Qed.

(** ** Reading the events of a sequence *)

Lemma attempts_app d evs1 evs2 :
  attempts d (evs1 ++ evs2) = attempts d evs1 ++ attempts d evs2.
Proof. apply omap_app. Qed.

Lemma saves_app d evs1 evs2 : saves d (evs1 ++ evs2) = saves d evs1 ++ saves d evs2.
Proof. apply omap_app. Qed.

Lemma delivered_app evs1 evs2 : delivered (evs1 ++ evs2) = delivered evs1 ++ delivered evs2.
Proof. apply omap_app. Qed.

(** ** The sending loop *)

Section Loop.

Context (w : World) (env : Env) (dist : string).

Lemma loop_facts_nil st : loop_facts env dist [] st ([], st, Return tt).
Proof. split; cbn; try done. by left. Qed.

(** A pass of the body that is cut short by the death of the process. *)
Lemma loop_facts_killed e l st evs1 b :
  attempts dist evs1 = [(e, b)] \/ attempts dist evs1 = [] ->
  saves dist evs1 = [] ->
  (forall d, d <> dist -> attempts d evs1 = [] /\ saves d evs1 = []) ->
  delivered evs1 = message env <$> sent_ok (attempts dist evs1) ->
  forall st1, fs st1 = fs st -> loop_facts env dist (e :: l) st (evs1, st1, Killed).
Proof.
  intros Ha Hs Ho Hd st1 Hfs.
  split; rewrite ?events_mk, ?ending_mk, ?files_after_mk; try done.
  - by right.
  - destruct Ha as [-> | ->]; cbn; [by apply prefix_cons, prefix_nil | apply prefix_nil].
  - rewrite Hs. apply sublist_nil_l.
  - by rewrite Hs.
Qed.

(** A pass of the body that returns, followed by the rest of the loop. *)
Lemma loop_facts_cons e l st evs1 st1 b sv x :
  attempts dist evs1 = [(e, b)] ->
  saves dist evs1 = sv ->
  sv = [] \/ sv = [updated_date e] /\ b = true ->
  fs st1 = match last sv with
           | Some ts => <[(BASEPATH env, last_processed_ts_file dist) := Py.str ts]> (fs st)
           | None => fs st
           end ->
  (forall d, d <> dist -> attempts d evs1 = [] /\ saves d evs1 = []) ->
  delivered evs1 = (if b then [message env e] else []) ->
  loop_facts env dist l st1 x ->
  loop_facts env dist (e :: l) st (evs1 ++ events x, x.1.2, ending x).
Proof.
  intros Ha Hs Hsv Hfs Ho Hd [H1 H2 H3 H4 H5 H6 H7].
  split; rewrite ?events_mk, ?ending_mk, ?files_after_mk;
    rewrite ?attempts_app, ?saves_app, ?delivered_app, ?Ha, ?Hs; cbn [app fmap list_fmap fst].
  - done.
  - by apply prefix_cons.
  - intros Hr. f_equal. by apply H3.
  - unfold sent_ok. cbn [omap list_omap snd fst].
    fold (sent_ok (attempts dist (events x))).
    destruct Hsv as [-> | [-> ->]]; cbn.
    + destruct b; cbn; [by apply sublist_cons | done].
    + by apply sublist_skip.
  - fold (files_after x). rewrite H5, Hfs.
    destruct Hsv as [-> | [-> _]]; cbn [app last]; [done|].
    destruct (saves dist (events x)) as [|t ts] eqn:E; [done|].
    change (last (updated_date e :: t :: ts)) with (last (t :: ts)).
    destruct (last (t :: ts)) eqn:El; [by rewrite insert_insert_eq|].
    by apply last_None in El.
  - intros d Hne. rewrite attempts_app, saves_app.
    destruct (Ho d Hne) as [-> ->], (H6 d Hne) as [-> ->]. done.
  - rewrite Hd, H7. unfold sent_ok. cbn [omap list_omap snd fst].
    by destruct b.
Qed.

Ltac read_step :=
  unfold attempts, saves, delivered, dbg_send, log_updated, log_could_not_send;
  cbn [omap list_omap attempt_of save_of delivery_of];
  rewrite ?String.eqb_refl; cbn [omap list_omap].

Lemma step_other e b ts0 d :
  d <> dist ->
  attempts d [dbg_send env e; Send dist e (message env e) b; log_updated (last_processed_ts_file dist) ts0] = [] /\
  saves d [dbg_send env e; Send dist e (message env e) b; log_updated (last_processed_ts_file dist) ts0] = [] /\
  attempts d [dbg_send env e; Send dist e (message env e) b; log_could_not_send] = [] /\
  saves d [dbg_send env e; Send dist e (message env e) b; log_could_not_send] = [] /\
  attempts d [dbg_send env e; Send dist e (message env e) b] = [] /\
  saves d [dbg_send env e; Send dist e (message env e) b] = [] /\
  attempts d [dbg_send env e] = [] /\ saves d [dbg_send env e] = [].
Proof.
  intros Hne.
  assert (String.eqb dist d = false) as E1 by (apply String.eqb_neq; congruence).
  assert (String.eqb (last_processed_ts_file dist) (last_processed_ts_file d) = false) as E2
    by (apply file_eqb_other; congruence).
  unfold attempts, saves, dbg_send, log_updated, log_could_not_send.
  cbn [omap list_omap attempt_of save_of]. rewrite E1, E2. done.
Qed.

Lemma send_loop_facts l : forall st, loop_facts env dist l st (send_loop w env dist l st).
Proof.
  induction l as [|e l IH]; intros st.
  - apply loop_facts_nil.
  - unfold send_loop. rewrite for_each_cons. unfold bind. rewrite notify_eq.
    fold (send_loop w env dist l).
    destruct (smtp_outcome w (n_sent st)) eqn:Hs;
      [destruct (write_outcome w (n_written st)) eqn:Hw | | ].
    + pose proof (IH (saved_state env (last_processed_ts_file dist) (updated_date e) st)) as IH'.
      destruct (send_loop w env dist l (saved_state env (last_processed_ts_file dist) (updated_date e) st))
        as [[evs st'] r].
      eapply (loop_facts_cons e l st _ (saved_state env (last_processed_ts_file dist) (updated_date e) st)
                true [updated_date e] (evs, st', r));
        [by read_step | by read_step | by right | reflexivity
        | intros d Hd; by destruct (step_other e true (updated_date e) d Hd) as (?&?&?&?&?&?&?&?)
        | by read_step | exact IH'].
    + pose proof (IH (bump_both st)) as IH'.
      destruct (send_loop w env dist l (bump_both st)) as [[evs st'] r].
      eapply (loop_facts_cons e l st _ (bump_both st) true [] (evs, st', r));
        [by read_step | by read_step | by left | reflexivity
        | intros d Hd; by destruct (step_other e true 0 d Hd) as (?&?&?&?&?&?&?&?)
        | by read_step | exact IH'].
    + eapply (loop_facts_killed e l st _ true);
        [left; by read_step | by read_step
        | intros d Hd; by destruct (step_other e true 0 d Hd) as (?&?&?&?&?&?&?&?)
        | by read_step | done].
    + pose proof (IH (bump_sent st)) as IH'.
      destruct (send_loop w env dist l (bump_sent st)) as [[evs st'] r].
      eapply (loop_facts_cons e l st _ (bump_sent st) false [] (evs, st', r));
        [by read_step | by read_step | by left | reflexivity
        | intros d Hd; by destruct (step_other e false 0 d Hd) as (?&?&?&?&?&?&?&?)
        | by read_step | exact IH'].
    + eapply (loop_facts_killed e l st _ true);
        [right; by read_step | by read_step
        | intros d Hd; by destruct (step_other e true 0 d Hd) as (?&?&?&?&?&?&?&?)
        | by read_step | done].
Qed.

End Loop.


Lemma for_each_app {A} (l1 l2 : list A) body st :
  for_each (l1 ++ l2) body st = bind (for_each l1 body) (fun _ => for_each l2 body) st.
Proof.
  revert st. induction l1 as [|x l1 IH]; intros st.
  - cbn. unfold bind, ret. by destruct (for_each l2 body st) as [[evs st'] r].
  - cbn [app]. rewrite for_each_cons.
    change (for_each (x :: l1) body) with (bind (body x) (fun _ => for_each l1 body)).
    unfold bind.
    destruct (body x st) as [[evs st1] [[]| |]]; [|done|done].
    rewrite IH. unfold bind.
    destruct (for_each l1 body st1) as [[evs1 st2] [[]| |]]; [|done|done].
    destruct (for_each l2 body st2) as [[evs2 st3] r]. by rewrite app_assoc.
Qed.

(** ** One distribution *)

Lemma sorted_desc_nil data : sorted_desc data = [] -> data = [].
Proof.
  destruct data as [|x data]; [done|]. cbn.
  destruct (foldr insert_desc [] data) as [|y l]; cbn; [done|].
  by destruct (updated_date x <? updated_date y).
Qed.

Section Process.

Context (w : World) (env : Env).

Lemma process_unknown dist st :
  DISTRIBUTIONS_ERRATA_URL !! dist = None ->
  process w env dist st = ([warn_unknown dist], st, Return tt).
Proof. intros H. unfold process. by rewrite H. Qed.

Lemma process_no_data dist url st :
  DISTRIBUTIONS_ERRATA_URL !! dist = Some url ->
  urlopen_json w url = None \/ urlopen_json w url = Some [] ->
  process w env dist st = (preamble dist url ++ [warn_no_data dist], st, Return tt).
Proof.
  intros H [E | E]; unfold process; rewrite H;
    unfold bind, fetch_errata_data, logging, ret, bind; rewrite E; reflexivity.
Qed.

Lemma process_first_time dist url data newest rest st :
  DISTRIBUTIONS_ERRATA_URL !! dist = Some url ->
  urlopen_json w url = Some data ->
  sorted_desc data = newest :: rest ->
  fs st !! (cwd env, last_processed_ts_file dist) = None ->
  process w env dist st =
  match write_outcome w (n_written st) with
  | Done =>
      (preamble dist url ++
         [log_updated (last_processed_ts_file dist) (updated_date newest);
          warn_first_time dist],
       written_state env (last_processed_ts_file dist) (updated_date newest) st,
       Return tt)
  | Raises => (preamble dist url, bump_written st, Raise OSError)
  | Dies => (preamble dist url, st, Killed)
  end.
Proof.
  intros H E Hs Hc. unfold process. rewrite H.
  unfold bind, fetch_errata_data, logging, ret, bind. rewrite E. cbn [fmap option_fmap option_map].
  rewrite Hs. unfold os_path_exists. rewrite Hc.
  rewrite bool_decide_eq_false_2 by (intros [? ?]; done). cbn [negb].
  unfold save_last_processed_ts, bind, open_write, logging.
  destruct (write_outcome w (n_written st)); reflexivity.
Qed.

Lemma process_stuck dist url data newest rest st :
  DISTRIBUTIONS_ERRATA_URL !! dist = Some url ->
  urlopen_json w url = Some data ->
  sorted_desc data = newest :: rest ->
  visible env (fs st) dist ->
  watermark env (fs st) dist = None ->
  exists e, process w env dist st = (preamble dist url, st, Raise e).
Proof.
  intros H E Hs Hc Hw. unfold process. rewrite H.
  unfold bind, fetch_errata_data, logging, ret, bind. rewrite E. cbn [fmap option_fmap option_map].
  rewrite Hs. unfold os_path_exists.
  rewrite bool_decide_eq_true_2 by done. cbn [negb].
  unfold open_readline. unfold watermark in Hw.
  destruct (fs st !! (BASEPATH env, last_processed_ts_file dist)) as [text|];
    [|by eexists].
  cbn in Hw. unfold of_option, new_erratas_of. rewrite Hw. cbn. by eexists.
Qed.

Lemma process_ready dist url data newest rest wm st :
  DISTRIBUTIONS_ERRATA_URL !! dist = Some url ->
  urlopen_json w url = Some data ->
  sorted_desc data = newest :: rest ->
  visible env (fs st) dist ->
  watermark env (fs st) dist = Some wm ->
  process w env dist st =
  let x := send_loop w env dist (todo wm data) st in
  (preamble dist url ++ log_found dist (length (todo wm data)) :: events x,
   x.1.2, ending x).
Proof.
  intros H E Hs Hc Hw. unfold process. rewrite H.
  unfold bind, fetch_errata_data, logging, ret, bind. rewrite E. cbn [fmap option_fmap option_map].
  rewrite Hs. unfold os_path_exists.
  rewrite bool_decide_eq_true_2 by done. cbn [negb].
  unfold open_readline. unfold watermark in Hw.
  destruct (fs st !! (BASEPATH env, last_processed_ts_file dist)) as [text|];
    [|done].
  cbn in Hw. unfold of_option, new_erratas_of. rewrite Hw. cbn [mbind option_bind ret].
  rewrite <- Hs. cbv zeta. unfold todo, send_loop. rewrite length_reverse.
  destruct (for_each _ _ st) as [[evs st'] r]. reflexivity.
Qed.

End Process.

(** ** [int(str(ts))] reads back what was written *)

Lemma num_chars_uint d : all_chars num_char (NilEmpty.string_of_uint d) = true.
Proof. induction d; cbn; auto. Qed.

Lemma num_chars_uint0 d : all_chars num_char (NilZero.string_of_uint d) = true.
Proof. destruct d; try done; apply (num_chars_uint (_ d)). Qed.

Lemma num_chars_str z : all_chars num_char (Py.str z) = true.
Proof.
  unfold Py.str. destruct z as [|p|p]; cbn [Z.to_int NilZero.string_of_int].
  - done.
  - apply num_chars_uint0.
  - cbn [all_chars]. by rewrite num_chars_uint0.
Qed.

Lemma num_char_plain a :
  num_char a = true ->
  Py.is_space a = false /\ Ascii.eqb a "010" = false /\ Ascii.eqb a "013" = false /\
  Ascii.eqb a "+" = false.
Proof.
  destruct a as [[] [] [] [] [] [] [] []]; cbn; intros H; try discriminate H; done.
Qed.

Lemma readline_num s : all_chars num_char s = true -> Py.readline s = s.
Proof.
  induction s as [|a s IH]; cbn; [done|]. intros [Ha Hs]%andb_prop.
  destruct (num_char_plain a Ha) as (_ & -> & -> & _). cbn. by rewrite IH.
Qed.

Lemma rstrip_num s : all_chars num_char s = true -> Py.rstrip s = s.
Proof.
  induction s as [|a s IH]; cbn; [done|]. intros [Ha Hs]%andb_prop.
  rewrite IH by done. destruct (num_char_plain a Ha) as (-> & _).
  by destruct s.
Qed.

Lemma strip_num s : all_chars num_char s = true -> Py.strip s = s.
Proof.
  intros H. unfold Py.strip.
  destruct s as [|a s]; [done|]. cbn [Py.lstrip].
  cbn in H. apply andb_prop in H as [Ha Hs].
  destruct (num_char_plain a Ha) as (-> & _).
  apply rstrip_num. cbn. by rewrite Ha, Hs.
Qed.

Lemma to_int_proper z : Z.to_int z <> Decimal.Pos Decimal.Nil /\ Z.to_int z <> Decimal.Neg Decimal.Nil.
Proof.
  destruct z as [|p|p]; cbn; split; try done;
    intros [= E]; by apply (Unsigned.to_uint_nonnil p).
Qed.

Lemma int_str z : Py.int (Py.readline (Py.str z)) = Some z.
Proof.
  pose proof (num_chars_str z) as H.
  rewrite (readline_num _ H). unfold Py.int. rewrite (strip_num _ H).
  assert (NilZero.int_of_string (Py.str z) = Some (Z.to_int z)) as E.
  { destruct (to_int_proper z). by apply NilZero.isi. }
  destruct (Py.str z) as [|a r] eqn:Es; [done|].
  cbn in H. apply andb_prop in H as [Ha _].
  destruct (num_char_plain a Ha) as (_ & _ & _ & ->).
  rewrite E. cbn. by rewrite DecimalZ.of_to.
Qed.

(** ** Sorting and filtering *)

Lemma StronglySorted_sublist {A} (R : relation A) l1 l2 :
  l1 `sublist_of` l2 -> StronglySorted R l2 -> StronglySorted R l1.
Proof.
  induction 1 as [|x l1 l2 Hs IH|x l1 l2 Hs IH]; intros H; [done| |].
  - apply StronglySorted_inv in H as [H1 H2]. constructor; [by apply IH|].
    apply Forall_forall. intros y Hy. rewrite Forall_forall in H2.
    apply H2. by eapply sublist_subseteq.
  - apply StronglySorted_inv in H as [H1 H2]. by apply IH.
Qed.

Lemma StronglySorted_reverse {A} (R : relation A) l :
  StronglySorted R l -> StronglySorted (flip R) (reverse l).
Proof.
  induction 1 as [|x l Hl IH Hx]; [constructor|].
  rewrite reverse_cons. apply StronglySorted_app; split_and!.
  - intros y z Hy Hz. apply list_elem_of_singleton in Hz as ->.
    rewrite elem_of_reverse in Hy. rewrite Forall_forall in Hx. unfold flip. by apply Hx.
  - done.
  - repeat constructor.
Qed.

Lemma insert_desc_perm x l : insert_desc x l ≡ₚ x :: l.
Proof.
  induction l as [|y l IH]; cbn; [done|].
  destruct (updated_date x <? updated_date y); [|done].
  rewrite IH. apply Permutation_swap.
Qed.

Lemma sorted_desc_perm data : sorted_desc data ≡ₚ data.
Proof.
  induction data as [|x data IH]; cbn; [done|].
  fold (sorted_desc data). by rewrite insert_desc_perm, IH.
Qed.

Lemma insert_desc_sorted x l :
  StronglySorted newer_first l -> StronglySorted newer_first (insert_desc x l).
Proof.
  induction 1 as [|y l Hl IH Hy]; cbn; [repeat constructor|].
  destruct (Z.ltb_spec (updated_date x) (updated_date y)) as [Hlt | Hge].
  - constructor; [done|]. rewrite insert_desc_perm.
    constructor; [unfold newer_first; lia | done].
  - constructor; [by constructor|]. constructor; [done|].
    eapply Forall_impl; [exact Hy|]. unfold newer_first. intros z. cbn. lia.
Qed.

Lemma sorted_desc_sorted data : StronglySorted newer_first (sorted_desc data).
Proof.
  induction data as [|x data IH]; cbn; [constructor|]. by apply insert_desc_sorted.
Qed.

Lemma elem_of_todo wm data e :
  e ∈ todo wm data <-> e ∈ data /\ wm < updated_date e.
Proof.
  unfold todo. rewrite elem_of_reverse, list_elem_of_filter, sorted_desc_perm. tauto.
Qed.

Lemma todo_sorted wm data : StronglySorted older_first (todo wm data).
Proof.
  unfold todo. apply (StronglySorted_reverse newer_first).
  eapply StronglySorted_sublist; [apply sublist_filter | apply sorted_desc_sorted].
Qed.




Lemma newest_is_max data newest rest :
  sorted_desc data = newest :: rest -> is_max_updated (updated_date newest) data.
Proof.
  intros H. pose proof (sorted_desc_sorted data) as Hs.
  pose proof (sorted_desc_perm data) as Hp. rewrite H in Hs, Hp.
  apply StronglySorted_inv in Hs as [_ Hall]. split.
  - exists newest. split; [|done]. rewrite <- Hp. by left.
  - intros e He. rewrite <- Hp in He. apply elem_of_cons in He as [-> | He]; [lia|].
    rewrite Forall_forall in Hall. by apply Hall.
Qed.

(** ** The five ways a distribution is handled *)

Lemma process_cases w env dist st : pass w env dist st (process w env dist st).
Proof.
  destruct (DISTRIBUTIONS_ERRATA_URL !! dist) as [url|] eqn:Hu;
    [|rewrite process_unknown by done; by constructor].
  destruct (urlopen_json w url) as [data|] eqn:Hd;
    [|rewrite (process_no_data w env dist url) by auto; constructor; auto].
  destruct (sorted_desc data) as [|newest rest] eqn:Hs.
  { apply sorted_desc_nil in Hs as ->.
    rewrite (process_no_data w env dist url) by auto. constructor; auto. }
  destruct (fs st !! (cwd env, last_processed_ts_file dist)) as [c|] eqn:Hc;
    [|rewrite (process_first_time w env dist url data newest rest) by done;
      by econstructor].
  assert (visible env (fs st) dist) as Hv by (unfold visible; by rewrite Hc).
  destruct (watermark env (fs st) dist) as [wm|] eqn:Hw.
  - rewrite (process_ready w env dist url data newest rest wm) by done.
    by econstructor.
  - destruct (process_stuck w env dist url data newest rest st) as [e ->]; try done.
    by econstructor.
Qed.

Lemma readers_preamble dist url d evs :
  attempts d (preamble dist url ++ evs) = attempts d evs /\
  saves d (preamble dist url ++ evs) = saves d evs /\
  delivered (preamble dist url ++ evs) = delivered evs.
Proof. done. Qed.

Lemma readers_found dist n d evs :
  attempts d (log_found dist n :: evs) = attempts d evs /\
  saves d (log_found dist n :: evs) = saves d evs /\
  delivered (log_found dist n :: evs) = delivered evs.
Proof. done. Qed.

(** In the ordinary case a pass is the sending loop, as far as sends, saves
    and files go. *)
Lemma ready_facts w env dist url data newest rest wm st :
  DISTRIBUTIONS_ERRATA_URL !! dist = Some url ->
  urlopen_json w url = Some data ->
  sorted_desc data = newest :: rest ->
  visible env (fs st) dist ->
  watermark env (fs st) dist = Some wm ->
  loop_facts env dist (todo wm data) st (process w env dist st).
Proof.
  intros Hu Hd Hs Hv Hw.
  rewrite (process_ready w env dist url data newest rest wm) by done. cbv zeta.
  destruct (send_loop_facts w env dist (todo wm data) st) as [H1 H2 H3 H4 H5 H6 H7].
  split; rewrite ?events_mk, ?ending_mk, ?files_after_mk; try done.
Qed.

Lemma files_after_insert_frame (files files' : gmap path string) key ots :
  files' = match ots with Some ts => <[key := Py.str ts]> files | None => files end ->
  (forall k, k <> key -> files' !! k = files !! k) /\
  (forall k, is_Some (files !! k) -> is_Some (files' !! k)).
Proof.
  intros ->. destruct ots as [ts|]; [|done]. split.
  - intros k Hk. by rewrite lookup_insert_ne.
  - intros k Hk. destruct (decide (key = k)) as [->|Hne];
      [rewrite lookup_insert_eq; by eexists | by rewrite lookup_insert_ne].
Qed.

(** What every pass respects: it touches one file, never removes any, and
    speaks only of its own distribution. *)
Lemma pass_frame w env dist st :
  let x := process w env dist st in
  (forall k, k <> (BASEPATH env, last_processed_ts_file dist) ->
             files_after x !! k = fs st !! k) /\
  (forall k, is_Some (fs st !! k) -> is_Some (files_after x !! k)) /\
  (forall d, d <> dist -> attempts d (events x) = [] /\ saves d (events x) = []) /\
  delivered (events x) = message env <$> sent_ok (attempts dist (events x)).
Proof.
  cbv zeta. destruct (process_cases w env dist st) as
    [Hu | url Hu Hd | url data newest rest Hu Hd Hs Hc | url data newest rest e Hu Hd Hs Hv Hw
    | url data newest rest wm Hu Hd Hs Hv Hw].
  - done.
  - done.
  - destruct (write_outcome w (n_written st)); rewrite ?events_mk, ?files_after_mk;
      try done.
    destruct (files_after_insert_frame (fs st)
      (fs (written_state env (last_processed_ts_file dist) (updated_date newest) st))
      (BASEPATH env, last_processed_ts_file dist) (Some (updated_date newest)))
      as [F1 F2]; [done|].
    split_and!; try done.
    intros d Hne. split; [done|].
    unfold saves, preamble, log_updated, warn_first_time. cbn.
    by rewrite file_eqb_other by congruence.
  - done.
  - destruct (send_loop_facts w env dist (todo wm data) st) as [H1 H2 H3 H4 H5 H6 H7].
    rewrite ?events_mk, ?files_after_mk.
    destruct (files_after_insert_frame (fs st)
      (files_after (send_loop w env dist (todo wm data) st))
      (BASEPATH env, last_processed_ts_file dist)
      (last (saves dist (events (send_loop w env dist (todo wm data) st)))))
      as [F1 F2]; [done|].
    split_and!; try done.
Qed.

(** ** A whole run *)

Lemma passes_cons w env d ds st :
  passes w env (d :: ds) st =
  match ending (process w env d st) with
  | Return _ =>
      (events (process w env d st) ++ events (passes w env ds (process w env d st).1.2),
       (passes w env ds (process w env d st).1.2).1.2,
       ending (passes w env ds (process w env d st).1.2))
  | _ => process w env d st
  end.
Proof.
  unfold passes. rewrite for_each_cons. unfold bind, events, ending.
  destruct (process w env d st) as [[evs st1] [[]| |]]; cbn [fst snd]; try done.
  by destruct (for_each ds (process w env) st1) as [[evs' st2] r].
Qed.

Lemma run_passes w env ds st :
  run w env ds st =
  (events (passes w env ds st) ++
     match ending (passes w env ds st) with Return _ => [SmtpQuit] | _ => [] end,
   (passes w env ds st).1.2, ending (passes w env ds st)).
Proof.
  unfold run, passes, bind, smtp_close, events, ending.
  destruct (for_each ds (process w env) st) as [[evs st1] [[]| |]]; cbn [fst snd];
    by rewrite ?app_nil_r.
Qed.

Lemma run_readers w env ds st :
  (forall d, attempts d (events (run w env ds st)) = attempts d (events (passes w env ds st))) /\
  (forall d, saves d (events (run w env ds st)) = saves d (events (passes w env ds st))) /\
  delivered (events (run w env ds st)) = delivered (events (passes w env ds st)) /\
  files_after (run w env ds st) = files_after (passes w env ds st) /\
  ending (run w env ds st) = ending (passes w env ds st).
Proof.
  rewrite run_passes. rewrite events_mk, files_after_mk, ending_mk.
  split_and!; try done; intros; rewrite ?attempts_app, ?saves_app, ?delivered_app;
    destruct (ending (passes w env ds st)) as [[]| |]; cbn; by rewrite app_nil_r.
Qed.

(** An unknown identifier leaves nothing but its warning. *)
Lemma unknown_skipped {B} (f : Event -> option B) w env ds1 bad ds2 st :
  DISTRIBUTIONS_ERRATA_URL !! bad = None ->
  f (warn_unknown bad) = None ->
  let x := run w env (ds1 ++ bad :: ds2) st in
  let x' := run w env (ds1 ++ ds2) st in
  omap f (events x) = omap f (events x') /\ x.1.2 = x'.1.2 /\ ending x = ending x'.
Proof.
  intros Hu Hf. cbv zeta. unfold run, bind. rewrite !for_each_app. unfold bind.
  destruct (for_each ds1 (process w env) st) as [[e1 s1] [[]| |]]; [|done|done].
  rewrite for_each_cons. unfold bind. rewrite process_unknown by done.
  destruct (for_each ds2 (process w env) s1) as [[e2 s2] [[]| |]];
    unfold events, ending; cbn [fst snd smtp_close];
    rewrite ?omap_app; cbn [omap list_omap]; rewrite Hf; done.
Qed.

Lemma unknown_no_trace w env bad ds :
  DISTRIBUTIONS_ERRATA_URL !! bad = None ->
  forall st,
    attempts bad (events (passes w env ds st)) = [] /\
    saves bad (events (passes w env ds st)) = [] /\
    forall dir, files_after (passes w env ds st) !! (dir, last_processed_ts_file bad)
                = fs st !! (dir, last_processed_ts_file bad).
Proof.
  intros Hu. induction ds as [|d ds IH]; intros st; [done|].
  rewrite passes_cons.
  assert (attempts bad (events (process w env d st)) = [] /\
          saves bad (events (process w env d st)) = [] /\
          forall dir, files_after (process w env d st) !! (dir, last_processed_ts_file bad)
                      = fs st !! (dir, last_processed_ts_file bad)) as (A1 & A2 & A3).
  { destruct (decide (d = bad)) as [->|Hne].
    - by rewrite process_unknown.
    - destruct (pass_frame w env d st) as (F1 & _ & F3 & _).
      destruct (F3 bad) as [-> ->]; [done|]. split_and!; try done.
      intros dir. apply F1. intros [= _ E]. by apply last_processed_ts_file_inj in E. }
  destruct (ending (process w env d st)) as [[]| |] eqn:He; [|done|done].
  destruct (IH (process w env d st).1.2) as (B1 & B2 & B3).
  rewrite events_mk, files_after_mk, attempts_app, saves_app, A1, A2, B1, B2.
  split_and!; try done. intros dir. fold (files_after (passes w env ds (process w env d st).1.2)).
  rewrite B3. apply A3.
Qed.

(** ** Rendering *)

Lemma app_string_assoc (a b c : string) : (a +:+ b) +:+ c = a +:+ (b +:+ c).
Proof.
  induction a as [|x a IH]; [reflexivity|].
  change (String x ((a +:+ b) +:+ c) = String x (a +:+ (b +:+ c))). by f_equal.
Qed.

Lemma substitute_app t1 t2 kw :
  Py.substitute (t1 ++ t2) kw =
  s1 ← Py.substitute t1 kw; s2 ← Py.substitute t2 kw; Some (s1 +:+ s2).
Proof.
  induction t1 as [|[s|x] t1 IH]; cbn.
  - by destruct (Py.substitute t2 kw).
  - rewrite IH. destruct (Py.substitute t1 kw) as [s1|]; cbn; [|done].
    destruct (Py.substitute t2 kw) as [s2|]; cbn; [|done].
    by rewrite app_string_assoc.
  - destruct (Py.lookup_kw x kw) as [v|]; [|done].
    rewrite IH. destruct (Py.substitute t1 kw) as [s1|]; cbn; [|done].
    destruct (Py.substitute t2 kw) as [s2|]; cbn; [|done].
    by rewrite app_string_assoc.
Qed.

Lemma content_template_split :
  CONTENT_TEMPLATE = CONTENT_BEFORE_LINK ++ Py.Var "errata_link" :: CONTENT_AFTER_LINK.
Proof. reflexivity. Qed.

Lemma href_loop_first id refs : forall i r href,
  refs !! i = Some r ->
  ref_id r = id ->
  (forall j r', (j < i)%nat -> refs !! j = Some r' -> ref_id r' <> id) ->
  href_loop id refs href = ref_href r.
Proof.
  induction refs as [|r0 refs IH]; intros i r href Hi Hr Hbefore; [done|].
  destruct i as [|i]; cbn in *.
  - injection Hi as ->. by rewrite (proj2 (String.eqb_eq _ _) Hr).
  - assert (ref_id r0 <> id) as Hne by (apply (Hbefore 0%nat r0); [lia | done]).
    rewrite (proj2 (String.eqb_neq _ _) Hne).
    apply (IH i r href Hi Hr). intros j r' Hj Hl.
    apply (Hbefore (S j) r'); [lia | done].
Qed.

Lemma href_loop_none id refs href :
  (forall r, r ∈ refs -> ref_id r <> id) -> href_loop id refs href = href.
Proof.
  induction refs as [|r0 refs IH]; intros H; [done|]. cbn.
  rewrite (proj2 (String.eqb_neq _ _) (H r0 (list_elem_of_here _ _))).
  apply IH. intros r Hr. apply H. by right.
Qed.

Lemma send_loop_rendered w env dist l :
  forall st, Forall (well_rendered env) (events (send_loop w env dist l st)).
Proof.
  induction l as [|e l IH]; intros st; [constructor|].
  unfold send_loop. rewrite for_each_cons. unfold bind. rewrite notify_eq.
  fold (send_loop w env dist l).
  destruct (smtp_outcome w (n_sent st)); [destruct (write_outcome w (n_written st))| |].
  - specialize (IH (saved_state env (last_processed_ts_file dist) (updated_date e) st)).
    destruct (send_loop w env dist l _) as [[evs st'] r]. rewrite events_mk in *.
    repeat (constructor; [done|]). done.
  - specialize (IH (bump_both st)).
    destruct (send_loop w env dist l _) as [[evs st'] r]. rewrite events_mk in *.
    repeat (constructor; [done|]). done.
  - repeat constructor.
  - specialize (IH (bump_sent st)).
    destruct (send_loop w env dist l _) as [[evs st'] r]. rewrite events_mk in *.
    repeat (constructor; [done|]). done.
  - repeat constructor.
Qed.

Lemma process_rendered w env dist st :
  Forall (well_rendered env) (events (process w env dist st)).
Proof.
  destruct (process_cases w env dist st) as
    [Hu | url Hu Hd | url data newest rest Hu Hd Hs Hc | url data newest rest e Hu Hd Hs Hv Hw
    | url data newest rest wm Hu Hd Hs Hv Hw]; rewrite ?events_mk.
  - repeat constructor.
  - repeat constructor.
  - destruct (write_outcome w (n_written st)); rewrite events_mk; repeat constructor.
  - repeat constructor.
  - repeat (constructor; [done|]). apply send_loop_rendered.
Qed.

Lemma run_rendered w env ds :
  forall st, Forall (well_rendered env) (events (run w env ds st)).
Proof.
  intros st. rewrite run_passes, events_mk. apply Forall_app. split.
  - revert st. induction ds as [|d ds IH]; intros st; [constructor|].
    rewrite passes_cons. pose proof (process_rendered w env d st) as H.
    destruct (ending (process w env d st)) as [[]| |]; [|done|done].
    rewrite events_mk. apply Forall_app. split; [done | apply IH].
  - destruct (ending (passes w env ds st)) as [[]| |]; repeat constructor.
Qed.

(** * The claims *)

(** C7. A distribution identifier that is not a key of
    [DISTRIBUTIONS_ERRATA_URL] is skipped with one warning and nothing
    else: its pass returns normally and leaves the state as it was, no
    message is sent and no watermark is written for it, no file named after
    it changes, and the run as a whole sends, saves, leaves the files and
    ends exactly as the run without that identifier does. *)
Theorem unknown_distribution_skipped (w : World) (env : Env)
    (ds1 : list string) (bad : string) (ds2 : list string) (files : gmap path string) :
  DISTRIBUTIONS_ERRATA_URL !! bad = None ->
  let r := run w env (ds1 ++ bad :: ds2) (start files) in
  let r' := run w env (ds1 ++ ds2) (start files) in
  (forall st, process w env bad st =
     ([Log WARNING "Skipping %s as it is not a valid distribution" [AStr bad]],
      st, Return tt)) /\
  attempts bad (events r) = [] /\
  saves bad (events r) = [] /\
  (forall dir, files_after r !! (dir, last_processed_ts_file bad)
               = files !! (dir, last_processed_ts_file bad)) /\
  files_after r = files_after r' /\
  ending r = ending r' /\
  delivered (events r) = delivered (events r') /\
  (forall d, attempts d (events r) = attempts d (events r') /\
             saves d (events r) = saves d (events r')).
Proof.
  intros Hu r r'. subst r r'.
  destruct (run_readers w env (ds1 ++ bad :: ds2) (start files)) as (R1 & R2 & R3 & R4 & R5).
  destruct (unknown_no_trace w env bad (ds1 ++ bad :: ds2) Hu (start files)) as (N1 & N2 & N3).
  split_and!.
  - intros st. by apply process_unknown.
  - by rewrite R1.
  - by rewrite R2.
  - intros dir. rewrite R4. apply N3.
  - unfold files_after.
    by destruct (unknown_skipped delivery_of w env ds1 bad ds2 (start files) Hu eq_refl)
      as (_ & -> & _).
  - by destruct (unknown_skipped delivery_of w env ds1 bad ds2 (start files) Hu eq_refl)
      as (_ & _ & ->).
  - by destruct (unknown_skipped delivery_of w env ds1 bad ds2 (start files) Hu eq_refl)
      as (E & _).
  - intros d. split.
    + by destruct (unknown_skipped (attempt_of d) w env ds1 bad ds2 (start files) Hu eq_refl)
        as (E & _).
    + by destruct (unknown_skipped (save_of (last_processed_ts_file d)) w env ds1 bad ds2
                     (start files) Hu eq_refl) as (E & _).
Qed.

Lemma unknown_distribution_skipped_witness :
  DISTRIBUTIONS_ERRATA_URL !! "centos-7" = None /\
  files_after (run (Scenario.fine [Scenario.e100; Scenario.e200]) Scenario.home
                 ["almalinux-8"; "centos-7"; "almalinux-9"]
                 (start (Scenario.with_watermark "/opt/errata" "150")))
  = files_after (run (Scenario.fine [Scenario.e100; Scenario.e200]) Scenario.home
                   ["almalinux-8"; "almalinux-9"]
                   (start (Scenario.with_watermark "/opt/errata" "150"))).
Proof.
  split; [reflexivity|].
  apply (unknown_distribution_skipped
           (Scenario.fine [Scenario.e100; Scenario.e200]) Scenario.home
           ["almalinux-8"] "centos-7" ["almalinux-9"]
           (Scenario.with_watermark "/opt/errata" "150")).
  reflexivity.
Defined.

(** C8. The text put in place of [$errata_link] is what
    [get_almalinux_errata_href] returns: every message handed to the SMTP
    session for an entry has as body the text of the template before the
    placeholder, then that link, then the text after it.  The link is the
    [href] of the first element of [references] whose [id] is the entry's
    [updateinfo_id], and the empty string when there is none. *)
Theorem link_is_first_matching_reference (env : Env) (e : Errata) :
  (forall w ds st d m ok,
     Send d e m ok ∈ events (run w env ds st) ->
     msg_content m =
       render CONTENT_BEFORE_LINK (content_kw e) +:+
       (get_almalinux_errata_href e +:+ render CONTENT_AFTER_LINK (content_kw e))) /\
  forallb (fun p => negb (mentions "errata_link" p))
    (CONTENT_BEFORE_LINK ++ CONTENT_AFTER_LINK) = true /\
  (forall i r,
     references e !! i = Some r ->
     ref_id r = updateinfo_id e ->
     (forall j r', (j < i)%nat -> references e !! j = Some r' ->
                   ref_id r' <> updateinfo_id e) ->
     get_almalinux_errata_href e = ref_href r) /\
  ((forall r, r ∈ references e -> ref_id r <> updateinfo_id e) ->
   get_almalinux_errata_href e = "").
Proof.
  split_and!.
  - intros w ds st d m ok Hin.
    pose proof (run_rendered w env ds st) as H. rewrite Forall_forall in H.
    specialize (H _ Hin). cbn in H. subst m. cbn [msg_content message].
    unfold render at 1. rewrite content_template_split at 1.
    rewrite (substitute_app CONTENT_BEFORE_LINK _ (content_kw e)).
    reflexivity.
  - reflexivity.
  - intros i r. apply href_loop_first.
  - apply href_loop_none.
Qed.

Lemma link_is_first_matching_reference_witness :
  get_almalinux_errata_href Scenario.e200
  = "https://errata.almalinux.org/8/ALSA-2024:0200.html".
Proof.
  apply (proj1 (proj2 (proj2 (link_is_first_matching_reference Scenario.home Scenario.e200)))
           1%nat {| ref_id := "ALSA-2024:0200";
                    ref_href := "https://errata.almalinux.org/8/ALSA-2024:0200.html" |}).
  - reflexivity.
  - reflexivity.
  - intros j r' Hj Hl. destruct j as [|j]; [|lia].
    injection Hl as <-. discriminate.
Defined.



Lemma prefix_sublist {A} (l1 l2 : list A) : l1 `prefix_of` l2 -> l1 `sublist_of` l2.
Proof. intros [k ->]. by apply sublist_inserts_r. Qed.

Lemma sent_ok_sublist a : sent_ok a `sublist_of` a.*1.
Proof.
  induction a as [|[e []] a IH]; cbn; [done | by apply sublist_skip | by apply sublist_cons].
Qed.


Lemma to_Return (r : result unit) : (r = Return tt \/ r = Killed) -> r <> Killed -> r = Return tt.
Proof. intros [H|H] Hn; done. Qed.


(** ** The first run for a distribution *)

Lemma todo_above wm data :
  (forall e, e ∈ data -> updated_date e <= wm) -> todo wm data = [].
Proof.
  intros H. destruct (todo wm data) as [|e l] eqn:E; [done|].
  assert (e ∈ todo wm data) as He by (rewrite E; left).
  apply elem_of_todo in He as [He Hlt]. specialize (H e He). lia.
Qed.

Lemma watermark_written (env : Env) (files : gmap path string) (dist : string) (ts : Z) :
  watermark env (<[(BASEPATH env, last_processed_ts_file dist) := Py.str ts]> files) dist
  = Some ts.
Proof. unfold watermark. rewrite lookup_insert_eq. cbn. apply int_str. Qed.


Section FirstRun.

Context (w : World) (env : Env) (dist url : string) (data : list Errata)
        (newest : Errata) (rest : list Errata).
Hypothesis Hu : DISTRIBUTIONS_ERRATA_URL !! dist = Some url.
Hypothesis Hd : urlopen_json w url = Some data.
Hypothesis Hs : sorted_desc data = newest :: rest.

Lemma seeding_pass st :
  unseen env dist (fs st) \/ seeded env dist newest (fs st) ->
  attempts dist (events (process w env dist st)) = [] /\
  (ending (process w env dist st) = Return tt ->
   seeded env dist newest (files_after (process w env dist st))).
Proof.
  unfold unseen, seeded. intros Hinv.
  destruct (fs st !! (cwd env, last_processed_ts_file dist)) as [c|] eqn:Hc.
  - destruct Hinv as [Hun | [Hwm [Hc' | Heq]]]; [congruence | congruence |].
    assert (visible env (fs st) dist) as Hv by (unfold visible; by rewrite Hc).
    assert (watermark env (fs st) dist = Some (updated_date newest)) as Hw.
    { unfold watermark. rewrite Hwm. cbn. apply int_str. }
    rewrite (process_ready w env dist url data newest rest (updated_date newest)) by done.
    rewrite todo_above by (apply (newest_is_max data newest rest Hs)).
    cbn. split; [done|]. intros _. split; [done | by right].
  - rewrite (process_first_time w env dist url data newest rest) by done.
    destruct (write_outcome w (n_written st)); rewrite events_mk, ending_mk, ?files_after_mk;
      [|done|done].
    split; [done|]. intros _. split.
    + cbn. by rewrite lookup_insert_eq.
    + cbn. destruct (decide (cwd env = BASEPATH env)) as [E|E]; [by right | left].
      rewrite lookup_insert_ne; [done|]. congruence.
Qed.

Lemma other_pass d st :
  d <> dist ->
  attempts dist (events (process w env d st)) = [] /\
  (unseen env dist (fs st) -> unseen env dist (files_after (process w env d st))) /\
  (seeded env dist newest (fs st) -> seeded env dist newest (files_after (process w env d st))).
Proof.
  intros Hne. destruct (pass_frame w env d st) as (F1 & _ & F3 & _).
  unfold unseen, seeded.
  assert (files_after (process w env d st) !! (BASEPATH env, last_processed_ts_file dist)
          = fs st !! (BASEPATH env, last_processed_ts_file dist)) as Ew.
  { apply F1. intros [= E]. by apply last_processed_ts_file_inj in E. }
  assert (files_after (process w env d st) !! (cwd env, last_processed_ts_file dist)
          = fs st !! (cwd env, last_processed_ts_file dist)) as Ec.
  { apply F1. intros [= _ E]. by apply last_processed_ts_file_inj in E. }
  split_and!.
  - by apply F3.
  - by rewrite Ec.
  - by rewrite Ec, Ew.
Qed.

Lemma seeding_passes ds : forall st,
  unseen env dist (fs st) \/ seeded env dist newest (fs st) ->
  attempts dist (events (passes w env ds st)) = [] /\
  (ending (passes w env ds st) = Return tt ->
   (unseen env dist (files_after (passes w env ds st)) \/ seeded env dist newest (files_after (passes w env ds st))) /\
   (seeded env dist newest (fs st) \/ dist ∈ ds -> seeded env dist newest (files_after (passes w env ds st)))).
Proof.
  induction ds as [|d ds IH]; intros st Hinv.
  - cbn. split; [done|]. intros _. split; [done|]. intros [H|H]; [done|].
    by apply elem_of_nil in H.
  - rewrite passes_cons.
    assert (attempts dist (events (process w env d st)) = [] /\
            (ending (process w env d st) = Return tt ->
             (unseen env dist (files_after (process w env d st)) \/
              seeded env dist newest (files_after (process w env d st))) /\
             (seeded env dist newest (fs st) \/ d = dist -> seeded env dist newest (files_after (process w env d st)))))
      as [A1 A2].
    { destruct (decide (d = dist)) as [->|Hne].
      - destruct (seeding_pass st Hinv) as [S1 S2]. split; [done|].
        intros Hr. split; [right|]; by auto.
      - destruct (other_pass d st Hne) as (O1 & O2 & O3). split; [done|].
        intros _. split; [destruct Hinv; auto|]. intros [H| ->]; [auto | done]. }
    destruct (ending (process w env d st)) as [[]| |] eqn:He;
      [|split; [done | by rewrite He] | split; [done | by rewrite He]].
    destruct (A2 eq_refl) as [A3 A4].
    destruct (IH (process w env d st).1.2 A3) as [B1 B2].
    rewrite events_mk, ending_mk, files_after_mk, attempts_app, A1, B1.
    split; [done|]. intros Hr. destruct (B2 Hr) as [B3 B4]. split; [done|].
    intros [H|H]; apply B4.
    + left. apply A4. by left.
    + apply elem_of_cons in H as [->|H]; [left; apply A4; by right | by right].
Qed.

End FirstRun.

Lemma passes_dir_frame w env ds : forall st k,
  k.1 <> BASEPATH env -> files_after (passes w env ds st) !! k = fs st !! k.
Proof.
  induction ds as [|d ds IH]; intros st k Hk; [done|].
  rewrite passes_cons.
  assert (files_after (process w env d st) !! k = fs st !! k) as E.
  { destruct (pass_frame w env d st) as (F1 & _). apply F1. intros ->. by apply Hk. }
  destruct (ending (process w env d st)) as [[]| |]; [|done|done].
  rewrite files_after_mk. fold (files_after (passes w env ds (process w env d st).1.2)).
  by rewrite IH.
Qed.

(** A run in which the existence check misses the watermark file of a
    distribution whose feed is there: nothing is sent for it, and if the
    run gets to the end the watermark holds the newest timestamp. *)
Lemma first_run w env dist url data ds files :
  DISTRIBUTIONS_ERRATA_URL !! dist = Some url ->
  urlopen_json w url = Some data ->
  data <> [] ->
  files !! (cwd env, last_processed_ts_file dist) = None ->
  dist ∈ ds ->
  let r := run w env ds (start files) in
  attempts dist (events r) = [] /\
  (ending r = Return tt ->
   exists m, is_max_updated m data /\
     files_after r !! (BASEPATH env, last_processed_ts_file dist) = Some (Py.str m) /\
     watermark env (files_after r) dist = Some m).
Proof.
  intros Hu Hd Hne Hc Hin r. subst r.
  destruct (run_readers w env ds (start files)) as (R1 & _ & _ & R4 & R5).
  rewrite R1, R4, R5.
  destruct (sorted_desc data) as [|newest rest] eqn:Hs;
    [by apply sorted_desc_nil in Hs|].
  destruct (seeding_passes w env dist url data newest rest Hu Hd Hs ds (start files))
    as [S1 S2]; [by left|].
  split; [done|]. intros Hr. destruct (S2 Hr) as [_ S3].
  destruct S3 as [S4 _]; [by right|].
  exists (updated_date newest). split_and!.
  - by eapply newest_is_max.
  - done.
  - unfold watermark. rewrite S4. cbn. apply int_str.
Qed.

(** C2. A distribution whose watermark file the run does not find, and
    whose feed is fetched and not empty: after a run that gets to its end
    the persisted watermark is the largest [updated_date] of the feed and
    [send_message] was not called for the distribution.  When the script
    runs from its own directory the file is found from then on, so this
    happens once. *)
Theorem first_run_seeds_watermark (w : World) (env : Env) (dist url : string)
    (data : list Errata) (ds : list string) (files : gmap path string) :
  DISTRIBUTIONS_ERRATA_URL !! dist = Some url ->
  urlopen_json w url = Some data ->
  data <> [] ->
  files !! (cwd env, last_processed_ts_file dist) = None ->
  dist ∈ ds ->
  ending (run w env ds (start files)) = Return tt ->
  let r := run w env ds (start files) in
  (exists m, is_max_updated m data /\ watermark env (files_after r) dist = Some m) /\
  attempts dist (events r) = [] /\
  (cwd env = BASEPATH env -> visible env (files_after r) dist).
Proof.
  intros Hu Hd Hne Hc Hin Hr r.
  destruct (first_run w env dist url data ds files Hu Hd Hne Hc Hin) as [F1 F2].
  destruct (F2 Hr) as (m & M1 & M2 & M3).
  split_and!; [by exists m | done |].
  intros E. unfold visible. subst r. rewrite E, M2. by eexists.
Qed.

Lemma first_run_seeds_watermark_witness :
  (exists m, is_max_updated m [Scenario.e100; Scenario.e300; Scenario.e200] /\
     watermark Scenario.home
       (files_after (run (Scenario.fine [Scenario.e100; Scenario.e300; Scenario.e200])
                       Scenario.home [Scenario.d8] (start ∅)))
       Scenario.d8 = Some m) /\
  attempts Scenario.d8
    (events (run (Scenario.fine [Scenario.e100; Scenario.e300; Scenario.e200])
               Scenario.home [Scenario.d8] (start ∅))) = [].
Proof.
  destruct (first_run_seeds_watermark
              (Scenario.fine [Scenario.e100; Scenario.e300; Scenario.e200])
              Scenario.home Scenario.d8 "https://errata.almalinux.org/8/errata.json"
              [Scenario.e100; Scenario.e300; Scenario.e200] [Scenario.d8] ∅)
    as (H1 & H2 & _).
  - reflexivity.
  - reflexivity.
  - discriminate.
  - reflexivity.
  - apply list_elem_of_here.
  - vm_compute. reflexivity.
  - split; [exact H1 | exact H2].
Defined.

(** C9. The existence check looks for the watermark file in the working
    directory, the read and the write use [BASEPATH].  So when the working
    directory is not the script's directory (and holds no file of that
    name: the run itself writes nowhere but under [BASEPATH]), a watermark
    written earlier is not seen: a run that gets to its end overwrites it
    with the newest timestamp of the feed and sends nothing for the
    distribution, and the next run finds things as this one did. *)
Theorem watermark_unseen_from_elsewhere (w : World) (env : Env) (dist url : string)
    (data : list Errata) (ds : list string) (files : gmap path string) (old : string) :
  cwd env <> BASEPATH env ->
  DISTRIBUTIONS_ERRATA_URL !! dist = Some url ->
  urlopen_json w url = Some data ->
  data <> [] ->
  files !! (BASEPATH env, last_processed_ts_file dist) = Some old ->
  files !! (cwd env, last_processed_ts_file dist) = None ->
  dist ∈ ds ->
  ending (run w env ds (start files)) = Return tt ->
  let r := run w env ds (start files) in
  attempts dist (events r) = [] /\
  (exists m, is_max_updated m data /\
     files_after r !! (BASEPATH env, last_processed_ts_file dist) = Some (Py.str m) /\
     watermark env (files_after r) dist = Some m) /\
  files_after r !! (cwd env, last_processed_ts_file dist) = None /\
  (forall k, k.1 <> BASEPATH env -> files_after r !! k = files !! k).
Proof.
  intros Hne Hu Hd Hdata Hold Hc Hin Hr r.
  destruct (first_run w env dist url data ds files Hu Hd Hdata Hc Hin) as [F1 F2].
  assert (forall k, k.1 <> BASEPATH env -> files_after r !! k = files !! k) as Hframe.
  { intros k Hk. subst r.
    destruct (run_readers w env ds (start files)) as (_ & _ & _ & -> & _).
    by apply (passes_dir_frame w env ds (start files) k). }
  split_and!; [done | by apply F2 | | done].
  by rewrite Hframe.
Qed.

Lemma watermark_unseen_from_elsewhere_witness :
  attempts Scenario.d8
    (events (run (Scenario.fine [Scenario.e100; Scenario.e200; Scenario.e300])
               Scenario.away [Scenario.d8]
               (start (Scenario.with_watermark "/opt/errata" "150")))) = [] /\
  watermark Scenario.away
    (files_after (run (Scenario.fine [Scenario.e100; Scenario.e200; Scenario.e300])
                    Scenario.away [Scenario.d8]
                    (start (Scenario.with_watermark "/opt/errata" "150"))))
    Scenario.d8 = Some 300.
Proof.
  destruct (watermark_unseen_from_elsewhere
              (Scenario.fine [Scenario.e100; Scenario.e200; Scenario.e300])
              Scenario.away Scenario.d8 "https://errata.almalinux.org/8/errata.json"
              [Scenario.e100; Scenario.e200; Scenario.e300] [Scenario.d8]
              (Scenario.with_watermark "/opt/errata" "150") "150")
    as (H1 & _ & _ & _).
  - discriminate.
  - reflexivity.
  - reflexivity.
  - discriminate.
  - reflexivity.
  - reflexivity.
  - apply list_elem_of_here.
  - vm_compute. reflexivity.
  - split; [exact H1 | vm_compute; reflexivity].
Defined.

(** ** An ordinary pass: what is sent, what is saved, where the watermark ends *)

Lemma elem_of_sent_ok a e : e ∈ sent_ok a <-> (e, true) ∈ a.
Proof.
  unfold sent_ok. rewrite list_elem_of_omap. split.
  - intros ([e' b] & Hin & Hb). cbn in Hb. destruct b; [|done]. by injection Hb as ->.
  - intros Hin. by exists (e, true).
Qed.

Lemma last_sorted_max (l : list Z) m :
  StronglySorted Z.le l -> last l = Some m -> forall t, t ∈ l -> t <= m.
Proof.
  intros Hs Hl t Ht.
  destruct (list_elem_of_split _ _ Ht) as (l1 & l2 & ->).
  apply StronglySorted_app_1_r in Hs. apply StronglySorted_inv in Hs as [_ Hall].
  rewrite last_app_cons in Hl. destruct l2 as [|t2 l2]; cbn in Hl.
  - injection Hl as ->. lia.
  - rewrite Forall_forall in Hall. apply Hall. change (last (t :: t2 :: l2)) with (last (t2 :: l2)) in Hl.
    by apply last_Some_elem_of.
Qed.

Lemma last_elem_of {A} (l : list A) x : last l = Some x -> x ∈ l.
Proof. apply last_Some_elem_of. Qed.

Lemma ready_pass_facts w env dist url data newest rest wm st :
  DISTRIBUTIONS_ERRATA_URL !! dist = Some url ->
  urlopen_json w url = Some data ->
  sorted_desc data = newest :: rest ->
  visible env (fs st) dist ->
  watermark env (fs st) dist = Some wm ->
  ready_pass env dist data wm st (process w env dist st).
Proof.
  intros Hu Hd Hs Hv Hw.
  destruct (ready_facts w env dist url data newest rest wm st) as [L1 L2 L3 L4 L5 L6 L7];
    try done.
  assert (saves dist (events (process w env dist st))
            `sublist_of` (updated_date <$> todo wm data)) as Hsub.
  { etrans; [exact L4|]. apply fmap_sublist. etrans; [apply sent_ok_sublist|].
    by apply prefix_sublist. }
  split.
  - done.
  - intros Hk. split; [by apply to_Return | apply L3; by apply to_Return].
  - eapply StronglySorted_sublist; [exact Hsub|].
    apply (StronglySorted_fmap updated_date older_first Z.le); [done | apply todo_sorted].
  - intros t Ht. split.
    + apply (sublist_subseteq _ _ Hsub) in Ht.
      apply list_elem_of_fmap in Ht as (e & -> & He). by apply elem_of_todo in He as [_ ?].
    + apply (sublist_subseteq _ _ L4) in Ht.
      apply list_elem_of_fmap in Ht as (e & -> & He). exists e. split; [|done].
      by apply elem_of_sent_ok.
  - rewrite L5. destruct (last (saves dist (events (process w env dist st)))) as [t|]; cbn.
    + apply watermark_written.
    + done.
  - destruct (pass_frame w env dist st) as (_ & F2 & _). by apply F2.
Qed.











(** ** Once saved, never sent again *)


Lemma other_pass_frame w env dist d st :
  d <> dist ->
  files_after (process w env d st) !! (cwd env, last_processed_ts_file dist)
    = fs st !! (cwd env, last_processed_ts_file dist) /\
  files_after (process w env d st) !! (BASEPATH env, last_processed_ts_file dist)
    = fs st !! (BASEPATH env, last_processed_ts_file dist) /\
  attempts dist (events (process w env d st)) = [] /\
  saves dist (events (process w env d st)) = [].
Proof.
  intros Hne. destruct (pass_frame w env d st) as (F1 & _ & F3 & _).
  destruct (F3 dist) as [-> ->]; [done|].
  split_and!; try done; apply F1.
  - intros [= _ E]. by apply last_processed_ts_file_inj in E.
  - intros [= E]. by apply last_processed_ts_file_inj in E.
Qed.











(** ** A stretch of the loop in which every send and write completes *)

Lemma send_loop_all_done w env dist l : forall st,
  all_done w st (length l) ->
  let x := send_loop w env dist l st in
  ending x = Return tt /\
  attempts dist (events x) = (fun e => (e, true)) <$> l /\
  saves dist (events x) = updated_date <$> l /\
  n_sent x.1.2 = (n_sent st + length l)%nat /\
  n_written x.1.2 = (n_written st + length l)%nat.
Proof.
  induction l as [|e l IH]; intros st Hall; cbv zeta.
  - cbn. split_and!; try done; lia.
  - unfold send_loop. rewrite for_each_cons. unfold bind. rewrite notify_eq.
    fold (send_loop w env dist l).
    destruct (Hall 0%nat) as [Hs Hw]; [cbn; lia|]. rewrite Nat.add_0_r in Hs, Hw.
    rewrite Hs, Hw.
    destruct (IH (saved_state env (last_processed_ts_file dist) (updated_date e) st))
      as (I1 & I2 & I3 & I4 & I5).
    { intros i Hi. cbn [saved_state n_sent n_written].
      destruct (Hall (S i)) as [H1 H2]; [cbn; lia|].
      rewrite Nat.add_succ_r in H1, H2. by split. }
    destruct (send_loop w env dist l _) as [[evs st'] r].
    rewrite events_mk, ending_mk in *. cbn [fst snd] in *.
    split_and!.
    + done.
    + unfold attempts in *. cbn. rewrite String.eqb_refl. cbn. by rewrite I2.
    + unfold saves in *. cbn. rewrite String.eqb_refl. cbn. by rewrite I3.
    + rewrite I4. cbn. lia.
    + rewrite I5. cbn. lia.
Qed.


(** ** Picking up after a run that was cut short *)









(** ** Running again over the same feed *)

Section Again.

(** The feed, as both runs see it. *)
Context (feed : string -> option (list Errata)) (env : Env).

Lemma quiet_frame files files' d :
  files' !! (cwd env, last_processed_ts_file d) = files !! (cwd env, last_processed_ts_file d) ->
  files' !! (BASEPATH env, last_processed_ts_file d)
    = files !! (BASEPATH env, last_processed_ts_file d) ->
  (quiet feed env files d -> quiet feed env files' d) /\ (stuck feed env files d -> stuck feed env files' d).
Proof.
  intros Ec Ew. unfold quiet, stuck, visible, watermark. rewrite Ec, Ew. done.
Qed.

Lemma calm_preserved files files' ds :
  (forall d, quiet feed env files d -> quiet feed env files' d) ->
  (forall d, stuck feed env files d -> stuck feed env files' d) ->
  calm feed env files ds -> calm feed env files' ds.
Proof.
  intros Hq Hs. induction 1 as [|d ds H|d ds H1 H2 IH];
    [constructor | apply calm_stuck; auto | apply calm_cons; auto].
Qed.

Lemma quiet_seeded files d url data newest rest :
  DISTRIBUTIONS_ERRATA_URL !! d = Some url ->
  feed url = Some data ->
  sorted_desc data = newest :: rest ->
  quiet feed env (<[(BASEPATH env, last_processed_ts_file d) := Py.str (updated_date newest)]> files) d.
Proof.
  intros Hu Hd Hs url' data' v Hu' Hd' _ Hw e He.
  assert (url' = url) as -> by congruence. assert (data' = data) as -> by congruence.
  rewrite watermark_written in Hw. injection Hw as <-.
  by apply (newest_is_max data newest rest Hs).
Qed.

Context (w : World).
Hypothesis Hfeed : forall url, urlopen_json w url = feed url.

(** A pass over a quiet distribution, whatever the SMTP service and the
    disk do. *)
Lemma quiet_pass d st :
  quiet feed env (fs st) d ->
  (forall d', attempts d' (events (process w env d st)) = []) /\
  (forall d0, quiet feed env (fs st) d0 -> quiet feed env (files_after (process w env d st)) d0) /\
  (forall d0, stuck feed env (fs st) d0 -> stuck feed env (files_after (process w env d st)) d0) /\
  (stuck feed env (fs st) d -> ending (process w env d st) <> Return tt).
Proof.
  intros Hq.
  assert (forall d0, d0 <> d ->
            (quiet feed env (fs st) d0 -> quiet feed env (files_after (process w env d st)) d0) /\
            (stuck feed env (fs st) d0 -> stuck feed env (files_after (process w env d st)) d0)) as Hother.
  { intros d0 Hne. destruct (other_pass_frame w env d0 d st) as (F1 & F2 & _); [done|].
    by apply quiet_frame. }
  assert (forall d', d' <> d -> attempts d' (events (process w env d st)) = []) as Hnone.
  { intros d' Hne. by destruct (other_pass_frame w env d' d st) as (_ & _ & ? & _). }
  assert (forall evs st' r,
            process w env d st = (evs, st', r) -> fs st' = fs st -> attempts d evs = [] ->
            (stuck feed env (fs st) d -> r <> Return tt) ->
            (forall d', attempts d' (events (process w env d st)) = []) /\
            (forall d0, quiet feed env (fs st) d0 -> quiet feed env (files_after (process w env d st)) d0) /\
            (forall d0, stuck feed env (fs st) d0 -> stuck feed env (files_after (process w env d st)) d0) /\
            (stuck feed env (fs st) d -> ending (process w env d st) <> Return tt)) as Hsame.
  { intros evs st' r E Hfs Ha Hr. split_and!.
    - intros d'. destruct (decide (d' = d)) as [->|Hne]; [by rewrite E | by apply Hnone].
    - intros d0. destruct (decide (d0 = d)) as [->|Hne]; [|by apply Hother].
      by rewrite E, files_after_mk, Hfs.
    - intros d0. destruct (decide (d0 = d)) as [->|Hne]; [|by apply Hother].
      by rewrite E, files_after_mk, Hfs.
    - rewrite E. exact Hr. }
  destruct (DISTRIBUTIONS_ERRATA_URL !! d) as [url|] eqn:Hu.
  2:{ eapply Hsame; [by apply process_unknown | done | done |].
      intros (? & ? & ? & ? & ? & _). congruence. }
  destruct (feed url) as [data|] eqn:Hd.
  2:{ eapply Hsame;
        [apply (process_no_data w env d url); [done | left; by rewrite Hfeed]
        | done | done |].
      intros (? & ? & ? & ? & ? & ? & _). congruence. }
  destruct (sorted_desc data) as [|newest rest] eqn:Hs.
  { apply sorted_desc_nil in Hs as ->.
    eapply Hsame;
      [apply (process_no_data w env d url); [done | right; by rewrite Hfeed]
      | done | done |].
    intros (u & dt & ? & ? & ? & ? & Hsd & _).
    assert (dt = []) as -> by congruence. done. }
  assert (urlopen_json w url = Some data) as Hd' by (by rewrite Hfeed).
  destruct (fs st !! (cwd env, last_processed_ts_file d)) as [c|] eqn:Hc.
  - assert (visible env (fs st) d) as Hv by (unfold visible; by rewrite Hc).
    destruct (watermark env (fs st) d) as [v|] eqn:Hw.
    + assert (todo v data = []) as Htodo by (apply todo_above; by eapply Hq).
      eapply Hsame.
      * rewrite (process_ready w env d url data newest rest v) by done.
        rewrite Htodo. reflexivity.
      * done.
      * done.
      * intros (? & ? & ? & ? & ? & ? & ? & ? & ?). congruence.
    + destruct (process_stuck w env d url data newest rest st) as [e E]; try done.
      eapply Hsame; [exact E | done | done | done].
  - pose proof (process_first_time w env d url data newest rest st Hu Hd' Hs Hc) as E.
    assert (~ stuck feed env (fs st) d) as Hns.
    { intros (? & ? & ? & ? & _ & _ & _ & [? Hv] & _). congruence. }
    destruct (write_outcome w (n_written st)).
    + split_and!.
      * intros d'. destruct (decide (d' = d)) as [->|Hne]; [by rewrite E | by apply Hnone].
      * intros d0. destruct (decide (d0 = d)) as [->|Hne]; [|by apply Hother].
        intros _. rewrite E, files_after_mk. by eapply quiet_seeded.
      * intros d0. destruct (decide (d0 = d)) as [->|Hne]; [done | by apply Hother].
      * done.
    + eapply Hsame; [exact E | done | done | done].
    + eapply Hsame; [exact E | done | done | done].
Qed.

(** A run over a calm list sends nothing. *)
Lemma calm_passes ds : forall st,
  calm feed env (fs st) ds -> forall d', attempts d' (events (passes w env ds st)) = [].
Proof.
  induction ds as [|d ds IH]; intros st Hcalm d'; [done|].
  rewrite passes_cons. inversion Hcalm as [|d0 ds0 Hst|d0 ds0 Hq Hrest]; subst.
  - destruct Hst as (url & data & newest & rest & Hu & Hd & Hs & Hv & Hw).
    destruct (process_stuck w env d url data newest rest st) as [e ->]; try done.
    by rewrite Hfeed.
  - destruct (quiet_pass d st Hq) as (Q1 & Q2 & Q3 & _).
    destruct (ending (process w env d st)) as [[]| |]; [|by apply Q1|by apply Q1].
    rewrite events_mk, attempts_app, Q1, IH; [done|].
    by eapply calm_preserved.
Qed.

(** When every send and every write completes, a pass leaves its
    distribution quiet, and raises only where the next run will. *)
Lemma complete_pass d st :
  (forall n, smtp_outcome w n = Done /\ write_outcome w n = Done) ->
  ending (process w env d st) <> Killed /\
  quiet feed env (files_after (process w env d st)) d /\
  (forall d0, quiet feed env (fs st) d0 -> quiet feed env (files_after (process w env d st)) d0) /\
  (forall e, ending (process w env d st) = Raise e ->
             stuck feed env (files_after (process w env d st)) d).
Proof.
  intros Hdone.
  assert (ending (process w env d st) <> Killed /\
          quiet feed env (files_after (process w env d st)) d /\
          (forall e, ending (process w env d st) = Raise e ->
                     stuck feed env (files_after (process w env d st)) d)) as (A1 & A2 & A3).
  { destruct (DISTRIBUTIONS_ERRATA_URL !! d) as [url|] eqn:Hu.
    2:{ rewrite process_unknown by done. split_and!; try done.
        intros ? ? ? ?. congruence. }
    destruct (feed url) as [data|] eqn:Hd.
    2:{ rewrite (process_no_data w env d url) by (try done; left; by rewrite Hfeed).
        split_and!; try done. intros ? ? ? ? ?. congruence. }
    destruct (sorted_desc data) as [|newest rest] eqn:Hs.
    { apply sorted_desc_nil in Hs as ->.
      rewrite (process_no_data w env d url) by (try done; right; by rewrite Hfeed).
      split_and!; try done. intros u dt v Hu' Hd' _ _ e He.
      assert (dt = []) as -> by congruence. by apply elem_of_nil in He. }
    assert (urlopen_json w url = Some data) as Hd' by (by rewrite Hfeed).
    destruct (fs st !! (cwd env, last_processed_ts_file d)) as [c|] eqn:Hc.
    - assert (visible env (fs st) d) as Hv by (unfold visible; by rewrite Hc).
      destruct (watermark env (fs st) d) as [v|] eqn:Hw.
      + destruct (ready_pass_facts w env d url data newest rest v st)
          as [P1 P2 P3 P4 P5 P6]; try done.
        destruct (send_loop_all_done w env d (todo v data) st) as (L1 & L2 & L3 & _).
        { intros i _. split; apply Hdone. }
        assert (ending (process w env d st) = Return tt /\
                saves d (events (process w env d st)) = updated_date <$> todo v data)
          as [E1 E2].
        { rewrite (process_ready w env d url data newest rest v) by done. cbv zeta.
          by rewrite events_mk, ending_mk. }
        split_and!; [by rewrite E1 | | by rewrite E1].
        intros u dt v' Hu' Hdt _ Hw' e He.
        assert (dt = data) as -> by congruence.
        rewrite P5 in Hw'. injection Hw' as <-.
        destruct (decide (v < updated_date e)) as [Hnew|Hold].
        * assert (updated_date e ∈ saves d (events (process w env d st))) as Hin.
          { rewrite E2. apply list_elem_of_fmap_2. by apply elem_of_todo. }
          destruct (last (saves d (events (process w env d st)))) as [m|] eqn:Hl; cbn.
          -- by apply (last_sorted_max _ _ P3 Hl).
          -- apply last_None in Hl. rewrite Hl in Hin. by apply elem_of_nil in Hin.
        * destruct (last (saves d (events (process w env d st)))) as [m|] eqn:Hl; cbn;
            [|lia].
          apply last_elem_of in Hl. destruct (P4 m Hl) as [? _]. lia.
      + destruct (process_stuck w env d url data newest rest st) as [e ->]; try done.
        split_and!; try done.
        * intros ? ? ? ? ? ? ?. rewrite files_after_mk in *. congruence.
        * intros _ _. rewrite files_after_mk. by exists url, data, newest, rest.
    - rewrite (process_first_time w env d url data newest rest) by done.
      destruct (Hdone (n_written st)) as [_ ->].
      split_and!; try done. rewrite files_after_mk. by eapply quiet_seeded. }
  split_and!; try done.
  intros d0 Hq. destruct (decide (d0 = d)) as [->|Hne]; [done|].
  destruct (other_pass_frame w env d0 d st) as (F1 & F2 & _); [done|].
  by apply (quiet_frame (fs st)).
Qed.

Lemma complete_passes ds :
  (forall n, smtp_outcome w n = Done /\ write_outcome w n = Done) ->
  forall st,
    calm feed env (files_after (passes w env ds st)) ds /\
    (forall d0, quiet feed env (fs st) d0 -> quiet feed env (files_after (passes w env ds st)) d0).
Proof.
  intros Hdone. induction ds as [|d ds IH]; intros st; [split; [constructor | done]|].
  rewrite passes_cons.
  destruct (complete_pass d st Hdone) as (C1 & C2 & C3 & C4).
  destruct (ending (process w env d st)) as [[]|e|] eqn:He.
  - destruct (IH (process w env d st).1.2) as [I1 I2].
    rewrite files_after_mk. split.
    + apply calm_cons; [|done]. by apply I2.
    + intros d0 Hq. by apply I2, C3.
  - split; [|done]. apply calm_stuck. by apply (C4 e).
  - done.
Qed.

End Again.

Lemma no_attempts_no_delivery evs :
  (forall d, attempts d evs = []) -> delivered evs = [].
Proof.
  induction evs as [|ev evs IH]; intros H; [done|].
  destruct ev as [l fmt args|d e m ok|].
  - apply IH. intros d. apply (H d).
  - specialize (H d). unfold attempts in H. cbn in H. by rewrite String.eqb_refl in H.
  - apply IH. intros d. apply (H d).
Qed.





(** * Further properties of the script *)

(** ** Sorting: what [fetch_errata_data] hands back *)

Lemma insert_desc_filter (t : Z) x l :
  filter (fun e => updated_date e = t) (insert_desc x l)
  = filter (fun e => updated_date e = t) (x :: l).
Proof.
  induction l as [|y l IH]; [done|]. cbn [insert_desc].
  destruct (updated_date x <? updated_date y) eqn:E; [|done].
  apply Z.ltb_lt in E.
  rewrite (filter_cons _ y), IH, !(filter_cons _ x), (filter_cons _ y).
  repeat case_decide; try done; lia.
Qed.

Lemma sorted_desc_filter (t : Z) data :
  filter (fun e => updated_date e = t) (sorted_desc data)
  = filter (fun e => updated_date e = t) data.
Proof.
  induction data as [|x data IH]; [done|].
  unfold sorted_desc in *. cbn [foldr]. rewrite insert_desc_filter, !filter_cons, IH. done.
Qed.

Lemma sorted_desc_fixed l : StronglySorted newer_first l -> sorted_desc l = l.
Proof.
  induction 1 as [|x l Hl IH Hx]; [done|].
  unfold sorted_desc in *. cbn [foldr]. rewrite IH.
  destruct l as [|y l]; [done|]. cbn [insert_desc].
  apply Forall_cons in Hx as [Hy _]. unfold newer_first in Hy.
  destruct (updated_date x <? updated_date y) eqn:E; [|done].
  apply Z.ltb_lt in E. lia.
Qed.

(** X1. [fetch_errata_data] never raises and leaves the state alone: it
    logs one DEBUG line and returns [None] when the download or the parse
    failed, and otherwise the entries of the feed, each as often as the
    feed has it, sorted by decreasing [updated_date]; entries with the
    same timestamp keep the order the feed gave them, a feed that is
    already sorted is returned as it is. *)
Theorem fetch_sorts_newest_first (w : World) (url : string) (st : State) :
  fetch_errata_data w url st =
    ([Log DEBUG "Fetching errata data from %s" [AStr url]], st,
     Return (sorted_desc <$> urlopen_json w url)) /\
  (forall data,
     sorted_desc data ≡ₚ data /\
     StronglySorted newer_first (sorted_desc data) /\
     (forall t, filter (fun e => updated_date e = t) (sorted_desc data)
                = filter (fun e => updated_date e = t) data) /\
     sorted_desc (sorted_desc data) = sorted_desc data).
Proof.
  split; [done|]. intros data. split_and!.
  - apply sorted_desc_perm.
  - apply sorted_desc_sorted.
  - intros t. apply sorted_desc_filter.
  - apply sorted_desc_fixed, sorted_desc_sorted.
Qed.

(** ** The new entries, with timestamps that repeat *)




Lemma pass_attempts_all w env dist url data wm st :
  DISTRIBUTIONS_ERRATA_URL !! dist = Some url ->
  urlopen_json w url = Some data ->
  visible env (fs st) dist ->
  watermark env (fs st) dist = Some wm ->
  ending (process w env dist st) <> Killed ->
  ending (process w env dist st) = Return tt /\
  (attempts dist (events (process w env dist st))).*1 = todo wm data.
Proof.
  intros Hu Hd Hv Hw Hk.
  destruct (sorted_desc data) as [|newest rest] eqn:Hs.
  - apply sorted_desc_nil in Hs as ->.
    rewrite (process_no_data w env dist url) by auto. done.
  - destruct (ready_pass_facts w env dist url data newest rest wm st) as [_ P2 _ _ _ _]; auto.
Qed.



(** ** A distribution whose feed cannot be had *)

Lemma silent_pass_skipped {B} (f : Event -> option B) w env ds1 d ds2 st evs :
  (forall st', process w env d st' = (evs, st', Return tt)) ->
  omap f evs = [] ->
  let x := run w env (ds1 ++ d :: ds2) st in
  let x' := run w env (ds1 ++ ds2) st in
  omap f (events x) = omap f (events x') /\ x.1.2 = x'.1.2 /\ ending x = ending x'.
Proof.
  intros Hp Hf. cbv zeta. unfold run, bind. rewrite !for_each_app. unfold bind.
  destruct (for_each ds1 (process w env) st) as [[e1 s1] [[]| |]]; [|done|done].
  rewrite for_each_cons. unfold bind. rewrite Hp.
  destruct (for_each ds2 (process w env) s1) as [[e2 s2] [[]| |]];
    unfold events, ending; cbn [fst snd smtp_close];
    rewrite ?omap_app, Hf; done.
Qed.

Lemma no_data_no_trace w env d url ds :
  DISTRIBUTIONS_ERRATA_URL !! d = Some url ->
  urlopen_json w url = None \/ urlopen_json w url = Some [] ->
  forall st,
    attempts d (events (passes w env ds st)) = [] /\
    saves d (events (passes w env ds st)) = [] /\
    forall dir, files_after (passes w env ds st) !! (dir, last_processed_ts_file d)
                = fs st !! (dir, last_processed_ts_file d).
Proof.
  intros Hu Hd. induction ds as [|d' ds IH]; intros st; [done|].
  rewrite passes_cons.
  assert (attempts d (events (process w env d' st)) = [] /\
          saves d (events (process w env d' st)) = [] /\
          forall dir, files_after (process w env d' st) !! (dir, last_processed_ts_file d)
                      = fs st !! (dir, last_processed_ts_file d)) as (A1 & A2 & A3).
  { destruct (decide (d' = d)) as [->|Hne].
    - by rewrite (process_no_data w env d url).
    - destruct (pass_frame w env d' st) as (F1 & _ & F3 & _).
      destruct (F3 d) as [-> ->]; [done|]. split_and!; try done.
      intros dir. apply F1. intros [= _ E]. by apply last_processed_ts_file_inj in E. }
  destruct (ending (process w env d' st)) as [[]| |] eqn:He; [|done|done].
  destruct (IH (process w env d' st).1.2) as (B1 & B2 & B3).
  rewrite events_mk, files_after_mk, attempts_app, saves_app, A1, A2, B1, B2.
  split_and!; try done. intros dir. fold (files_after (passes w env ds (process w env d' st).1.2)).
  rewrite B3. apply A3.
Qed.

(** X3. A known distribution whose feed cannot be downloaded or parsed,
    or is empty, is skipped with one warning: its pass returns normally
    and leaves the state as it was, even when there is no watermark file
    yet; no message is sent and no watermark is written for it, no file
    named after it changes, and the run sends, saves, leaves the files and
    ends exactly as the run without that distribution does. *)
Theorem failed_fetch_skips_distribution (w : World) (env : Env)
    (ds1 : list string) (d url : string) (ds2 : list string) (files : gmap path string) :
  DISTRIBUTIONS_ERRATA_URL !! d = Some url ->
  urlopen_json w url = None \/ urlopen_json w url = Some [] ->
  let r := run w env (ds1 ++ d :: ds2) (start files) in
  let r' := run w env (ds1 ++ ds2) (start files) in
  (forall st, process w env d st =
     ([Log DEBUG "Processing erratas for distribution %s" [AStr d];
       Log DEBUG "Fetching errata data from %s" [AStr url];
       Log WARNING "Could not fetch errata file for %s, skipping" [AStr d]],
      st, Return tt)) /\
  attempts d (events r) = [] /\
  saves d (events r) = [] /\
  (forall dir, files_after r !! (dir, last_processed_ts_file d)
               = files !! (dir, last_processed_ts_file d)) /\
  files_after r = files_after r' /\
  ending r = ending r' /\
  delivered (events r) = delivered (events r') /\
  (forall d', attempts d' (events r) = attempts d' (events r') /\
              saves d' (events r) = saves d' (events r')).
Proof.
  intros Hu Hd r r'. subst r r'.
  pose proof (fun st => process_no_data w env d url st Hu Hd) as Hp.
  destruct (run_readers w env (ds1 ++ d :: ds2) (start files)) as (R1 & R2 & R3 & R4 & R5).
  destruct (no_data_no_trace w env d url (ds1 ++ d :: ds2) Hu Hd (start files))
    as (N1 & N2 & N3).
  split_and!.
  - done.
  - by rewrite R1.
  - by rewrite R2.
  - intros dir. rewrite R4. apply N3.
  - unfold files_after.
    by destruct (silent_pass_skipped delivery_of w env ds1 d ds2 (start files) _ Hp eq_refl)
      as (_ & -> & _).
  - by destruct (silent_pass_skipped delivery_of w env ds1 d ds2 (start files) _ Hp eq_refl)
      as (_ & _ & ->).
  - by destruct (silent_pass_skipped delivery_of w env ds1 d ds2 (start files) _ Hp eq_refl)
      as (E & _).
  - intros d'. split.
    + by destruct (silent_pass_skipped (attempt_of d') w env ds1 d ds2 (start files) _ Hp eq_refl)
        as (E & _).
    + by destruct (silent_pass_skipped (save_of (last_processed_ts_file d')) w env ds1 d ds2
                     (start files) _ Hp eq_refl) as (E & _).
Qed.

Lemma failed_fetch_skips_distribution_witness :
  files_after (run (Scenario.fine [Scenario.e100; Scenario.e200]) Scenario.home
                 ["almalinux-8"; "almalinux-9"]
                 (start (Scenario.with_watermark "/opt/errata" "150")))
  = files_after (run (Scenario.fine [Scenario.e100; Scenario.e200]) Scenario.home
                   ["almalinux-8"]
                   (start (Scenario.with_watermark "/opt/errata" "150"))) /\
  saves "almalinux-9"
    (events (run (Scenario.fine [Scenario.e100; Scenario.e200]) Scenario.home
               ["almalinux-8"; "almalinux-9"]
               (start (Scenario.with_watermark "/opt/errata" "150")))) = [].
Proof.
  destruct (failed_fetch_skips_distribution
              (Scenario.fine [Scenario.e100; Scenario.e200]) Scenario.home
              ["almalinux-8"] "almalinux-9" "https://errata.almalinux.org/9/errata.json" []
              (Scenario.with_watermark "/opt/errata" "150"))
    as (_ & _ & H3 & _ & H5 & _).
  - reflexivity.
  - left. reflexivity.
  - split; [exact H5 | exact H3].
Defined.

(** ** The watermark file: what is written is what is read *)

Lemma readline_first_line s nl rest :
  all_chars num_char s = true ->
  nl = "010"%char \/ nl = "013"%char ->
  Py.readline (s +:+ String nl rest) = s +:+ LF.
Proof.
  intros Hs Hnl. induction s as [|a s IH].
  - cbn. by destruct Hnl as [-> | ->].
  - cbn in Hs. apply andb_prop in Hs as [Ha Hs].
    destruct (num_char_plain a Ha) as (_ & E1 & E2 & _).
    change (String a s +:+ String nl rest) with (String a (s +:+ String nl rest)).
    cbn [Py.readline]. rewrite E1, E2. cbn. by rewrite IH.
Qed.

Lemma rstrip_newline s : all_chars num_char s = true -> Py.rstrip (s +:+ LF) = s.
Proof.
  induction s as [|a s IH]; [done|]. intros [Ha Hs]%andb_prop.
  change (String a s +:+ LF) with (String a (s +:+ LF)).
  cbn [Py.rstrip]. rewrite IH by done.
  destruct (num_char_plain a Ha) as (-> & _). by destruct s.
Qed.

Lemma int_newline s : all_chars num_char s = true -> Py.int (s +:+ LF) = Py.int s.
Proof.
  intros Hs. unfold Py.int. rewrite (strip_num s Hs).
  destruct s as [|a s]; [done|].
  unfold Py.strip. change (String a s +:+ LF) with (String a (s +:+ LF)).
  pose proof Hs as Hs'. cbn in Hs'. apply andb_prop in Hs' as [Ha _].
  cbn [Py.lstrip]. destruct (num_char_plain a Ha) as (-> & _).
  change (String a (s +:+ LF)) with (String a s +:+ LF).
  by rewrite (rstrip_newline _ Hs).
Qed.

Lemma int_of_str z : Py.int (Py.str z) = Some z.
Proof. rewrite <- (readline_num _ (num_chars_str z)) at 1. apply int_str. Qed.

(** X4. [save_last_processed_ts] and the read of [run] agree on the
    file and on the format: when the write completes, the file under
    [BASEPATH] holds the decimal text of the timestamp, [readline] and
    [int] give the timestamp back, whatever integer it is, one INFO line is
    logged and no other file changes; when the write raises, nothing is
    logged and no file changes. *)
Theorem saved_watermark_reads_back (w : World) (env : Env) (file : string) (ts : Z)
    (st : State) :
  let x := save_last_processed_ts w env file ts st in
  match write_outcome w (n_written st) with
  | Done =>
      ending x = Return tt /\
      events x = [Log INFO "Updated %s with timestamp %s" [AStr file; AInt ts]] /\
      files_after x !! (BASEPATH env, file) = Some (Py.str ts) /\
      (exists line, open_readline env file x.1.2 = ([], x.1.2, Return line) /\
                    Py.int line = Some ts) /\
      (forall k, k <> (BASEPATH env, file) -> files_after x !! k = fs st !! k)
  | Raises => ending x = Raise OSError /\ events x = [] /\ files_after x = fs st
  | Dies => x = ([], st, Killed)
  end.
Proof.
  intros x. subst x. unfold save_last_processed_ts, bind, open_write, logging.
  destruct (write_outcome w (n_written st)); cbn; [|done|done].
  split_and!; try done.
  - apply lookup_insert_eq.
  - unfold open_readline. cbn. rewrite lookup_insert_eq. eexists. split; [done|].
    apply int_str.
  - intros k Hk. by apply lookup_insert_ne.
Qed.

(** X5. Only the first line of the watermark file counts: a file that
    holds the decimal text of an integer followed by a line end (LF or CR)
    and anything after it is read as that integer, so a file edited by
    hand, with its final newline, works.  An empty file is not a
    watermark. *)
Theorem watermark_is_first_line (env : Env) (files : gmap path string) (dist : string)
    (z : Z) (rest : string) :
  watermark env
    (<[(BASEPATH env, last_processed_ts_file dist) := Py.str z +:+ String "010" rest]> files)
    dist = Some z /\
  watermark env
    (<[(BASEPATH env, last_processed_ts_file dist) := Py.str z +:+ String "013" rest]> files)
    dist = Some z /\
  watermark env (<[(BASEPATH env, last_processed_ts_file dist) := ""]> files) dist = None.
Proof.
  unfold watermark. rewrite !lookup_insert_eq. cbn [mbind option_bind].
  rewrite !readline_first_line by (auto using num_chars_str).
  rewrite int_newline by apply num_chars_str. rewrite int_of_str. done.
Qed.

(** ** When a run stops with an exception *)




(** ** What the events of a run can be *)

Section Shape.

Context (w : World) (env : Env) (P : Event -> Prop).

Lemma send_loop_Forall dist l :
  (forall e, e ∈ l -> P (dbg_send env e)) ->
  (forall e ok, e ∈ l -> P (Send dist e (message env e) ok)) ->
  (forall e, e ∈ l -> P (log_updated (last_processed_ts_file dist) (updated_date e))) ->
  P log_could_not_send ->
  forall st, Forall P (events (send_loop w env dist l st)).
Proof.
  intros H1 H2 H3 H4. induction l as [|e l IH]; intros st; [constructor|].
  assert (forall st', Forall P (events (send_loop w env dist l st'))) as IH'.
  { apply IH; intros; [apply H1 | apply H2 | apply H3]; by right. }
  pose proof (H1 e (list_elem_of_here _ _)). pose proof (H3 e (list_elem_of_here _ _)).
  pose proof (fun ok => H2 e ok (list_elem_of_here _ _)).
  unfold send_loop. rewrite for_each_cons. unfold bind. rewrite notify_eq.
  fold (send_loop w env dist l).
  destruct (smtp_outcome w (n_sent st)); [destruct (write_outcome w (n_written st))| |].
  - specialize (IH' (saved_state env (last_processed_ts_file dist) (updated_date e) st)).
    destruct (send_loop w env dist l _) as [[evs st'] r]. rewrite events_mk in *.
    repeat (constructor; [done|]). done.
  - specialize (IH' (bump_both st)).
    destruct (send_loop w env dist l _) as [[evs st'] r]. rewrite events_mk in *.
    repeat (constructor; [done|]). done.
  - repeat (constructor; [done|]). constructor.
  - specialize (IH' (bump_sent st)).
    destruct (send_loop w env dist l _) as [[evs st'] r]. rewrite events_mk in *.
    repeat (constructor; [done|]). done.
  - repeat (constructor; [done|]). constructor.
Qed.

(** The events of a pass are the lines and calls of the source, and the
    entries they are about come from the feed. *)
Lemma process_Forall dist st :
  (DISTRIBUTIONS_ERRATA_URL !! dist = None -> P (warn_unknown dist)) ->
  (forall url, DISTRIBUTIONS_ERRATA_URL !! dist = Some url ->
     Forall P (preamble dist url) /\ P (warn_no_data dist) /\ P (warn_first_time dist) /\
     (forall n, P (log_found dist n)) /\ P log_could_not_send /\
     forall data e, urlopen_json w url = Some data -> e ∈ data ->
       P (dbg_send env e) /\ (forall ok, P (Send dist e (message env e) ok)) /\
       P (log_updated (last_processed_ts_file dist) (updated_date e))) ->
  Forall P (events (process w env dist st)).
Proof.
  intros H0 H1.
  destruct (process_cases w env dist st) as
    [Hu | url Hu Hd | url data newest rest Hu Hd Hs Hc | url data newest rest e Hu Hd Hs Hv Hw
    | url data newest rest wm Hu Hd Hs Hv Hw]; rewrite ?events_mk.
  - repeat constructor. auto.
  - destruct (H1 url Hu) as (Q1 & Q2 & _). apply Forall_app. split; [done|]. by repeat constructor.
  - destruct (H1 url Hu) as (Q1 & Q2 & Q3 & Q4 & Q5 & Q6).
    assert (newest ∈ data) as Hin.
    { rewrite <- (sorted_desc_perm data), Hs. apply list_elem_of_here. }
    destruct (Q6 data newest Hd Hin) as (_ & _ & Q7).
    destruct (write_outcome w (n_written st)); rewrite events_mk; try done.
    apply Forall_app. split; [done|]. by repeat constructor.
  - by destruct (H1 url Hu) as (Q1 & _).
  - destruct (H1 url Hu) as (Q1 & Q2 & Q3 & Q4 & Q5 & Q6).
    apply Forall_app. split; [done|]. constructor; [done|].
    apply send_loop_Forall; try done; intros e0; intros;
      (assert (e0 ∈ data) as Hin by (by apply (elem_of_todo wm data e0)));
      destruct (Q6 data e0 Hd Hin) as (R1 & R2 & R3); done.
Qed.

Lemma passes_Forall ds :
  (forall dist, dist ∈ ds -> DISTRIBUTIONS_ERRATA_URL !! dist = None -> P (warn_unknown dist)) ->
  (forall dist url, dist ∈ ds -> DISTRIBUTIONS_ERRATA_URL !! dist = Some url ->
     Forall P (preamble dist url) /\ P (warn_no_data dist) /\ P (warn_first_time dist) /\
     (forall n, P (log_found dist n)) /\ P log_could_not_send /\
     forall data e, urlopen_json w url = Some data -> e ∈ data ->
       P (dbg_send env e) /\ (forall ok, P (Send dist e (message env e) ok)) /\
       P (log_updated (last_processed_ts_file dist) (updated_date e))) ->
  forall st, Forall P (events (passes w env ds st)).
Proof.
  induction ds as [|d ds IH]; intros H0 H1 st; [constructor|].
  rewrite passes_cons.
  assert (Forall P (events (process w env d st))) as Hd.
  { apply process_Forall; [apply H0 | intros url; apply H1]; apply list_elem_of_here. }
  destruct (ending (process w env d st)) as [[]| |]; [|done|done].
  rewrite events_mk. apply Forall_app. split; [done|].
  apply IH; intros; [apply H0 | apply H1]; try done; by right.
Qed.

End Shape.






(** ** The messages *)

Lemma app_string_empty (s : string) : s +:+ "" = s.
Proof. induction s as [|a s IH]; [done|]. change (String a (s +:+ "") = String a s). by rewrite IH. Qed.

Lemma subject_text e :
  render SUBJECT_TEMPLATE (subject_kw e)
  = "[" +:+ Py.capitalize (type_ e) +:+ " Advisory] " +:+ title e.
Proof.
  unfold render, SUBJECT_TEMPLATE. cbn [Py.substitute Py.lookup_kw subject_kw String.eqb Ascii.eqb
    Bool.eqb fmap option_fmap option_map default].
  by rewrite app_string_empty.
Qed.

(** X9. Every message a run hands to [send_message] was rendered from
    an entry of the feed of a distribution that is on the command line and
    in [DISTRIBUTIONS_ERRATA_URL]; it goes from
    [AlmaLinux Errata Notifications <sender>] to the one recipient, its
    subject is the capitalized type in brackets followed by the title as
    the feed has it, and its body is the content template filled in for
    that entry. *)
Theorem every_message_comes_from_the_feed (w : World) (env : Env) (ds : list string)
    (st : State) (d : string) (e : Errata) (m : EmailMessage) (ok : bool) :
  Send d e m ok ∈ events (run w env ds st) ->
  d ∈ ds /\
  (exists url data,
     DISTRIBUTIONS_ERRATA_URL !! d = Some url /\ urlopen_json w url = Some data /\ e ∈ data) /\
  msg_From m = "AlmaLinux Errata Notifications <" +:+ sender env +:+ ">" /\
  msg_To m = recipient env /\
  msg_Subject m = "[" +:+ Py.capitalize (type_ e) +:+ " Advisory] " +:+ title e /\
  msg_content m = render CONTENT_TEMPLATE (content_kw e).
Proof.
  intros Hin.
  set (P := fun ev => match ev with
                      | Send d e m ok =>
                          d ∈ ds /\
                          (exists url data, DISTRIBUTIONS_ERRATA_URL !! d = Some url /\
                             urlopen_json w url = Some data /\ e ∈ data) /\
                          m = message env e
                      | _ => True
                      end).
  assert (Forall P (events (passes w env ds st))) as H.
  { apply passes_Forall.
    - done.
    - intros dist url Hd Hu. split_and!; try done; [by repeat constructor|].
      intros data e0 Hdata He0. split_and!; try done.
      intros ok0. cbn. split_and!; try done. by exists url, data. }
  rewrite run_passes, events_mk in Hin. apply elem_of_app in Hin as [Hin | Hin].
  - rewrite Forall_forall in H. destruct (H _ Hin) as (Q1 & Q2 & ->).
    split_and!; try done. cbn. apply subject_text.
  - destruct (ending (passes w env ds st)) as [[]| |].
    + apply list_elem_of_singleton in Hin. done.
    + by apply elem_of_nil in Hin.
    + by apply elem_of_nil in Hin.
Qed.

Lemma every_message_comes_from_the_feed_witness :
  msg_Subject (message Scenario.home Scenario.e200)
  = "[Security Advisory] ALSA-2024:0200: Important: kernel security update" /\
  msg_To (message Scenario.home Scenario.e200) = "announce@example.org".
Proof.
  destruct (every_message_comes_from_the_feed
              (Scenario.fine [Scenario.e100; Scenario.e200]) Scenario.home [Scenario.d8]
              (start (Scenario.with_watermark "/opt/errata" "150"))
              Scenario.d8 Scenario.e200 (message Scenario.home Scenario.e200) true)
    as (_ & _ & _ & H4 & H5 & _).
  - apply (list_elem_of_lookup_2 _ 4%nat). vm_compute. reflexivity.
  - split; [rewrite H5; reflexivity | exact H4].
Defined.

(** ** The watermark within a pass *)



(** ** What the log shows *)

Lemma log_output_app v evs1 evs2 :
  log_output v (evs1 ++ evs2) = log_output v evs1 ++ log_output v evs2.
Proof. apply omap_app. Qed.

Lemma saved_block_readers dist env e m :
  let block := [dbg_send env e; Send dist e m true;
                log_updated (last_processed_ts_file dist) (updated_date e)] in
  attempts dist block = [(e, true)] /\ saves dist block = [updated_date e] /\
  log_output false block = [].
Proof.
  unfold attempts, saves, log_output, dbg_send, log_updated.
  cbn [omap list_omap attempt_of save_of log_line log_level levelno Z.leb Z.compare
       Pos.compare Pos.compare_cont].
  by rewrite !String.eqb_refl.
Qed.

Lemma failed_block_readers dist env e m ok :
  let block := [dbg_send env e; Send dist e m ok; log_could_not_send] in
  attempts dist block = [(e, ok)] /\ saves dist block = [] /\
  log_output false block = [(ERROR, "Could not send errata notification email", [])].
Proof.
  unfold attempts, saves, log_output, dbg_send, log_could_not_send.
  cbn [omap list_omap attempt_of save_of log_line log_level levelno Z.leb Z.compare
       Pos.compare Pos.compare_cont].
  by rewrite !String.eqb_refl.
Qed.

Lemma send_loop_log w env dist l : forall st,
  let x := send_loop w env dist l st in
  log_output false (events x)
  = replicate (length (log_output false (events x)))
      (ERROR, "Could not send errata notification email", []) /\
  (ending x = Return tt ->
   length (attempts dist (events x))
   = (length (saves dist (events x)) + length (log_output false (events x)))%nat).
Proof.
  induction l as [|e l IH]; intros st; [done|].
  cbv zeta. unfold send_loop. rewrite for_each_cons. unfold bind. rewrite notify_eq.
  fold (send_loop w env dist l).
  destruct (smtp_outcome w (n_sent st)); [destruct (write_outcome w (n_written st))| |].
  - specialize (IH (saved_state env (last_processed_ts_file dist) (updated_date e) st)).
    destruct (send_loop w env dist l _) as [[evs st'] r].
    unfold events, ending in *. cbn [fst snd] in *. destruct IH as [I1 I2].
    rewrite attempts_app, saves_app, log_output_app.
    destruct (saved_block_readers dist env e (message env e)) as (-> & -> & ->).
    cbn [app length].
    split; [done|]. intros Hr. by rewrite (I2 Hr).
  - specialize (IH (bump_both st)).
    destruct (send_loop w env dist l _) as [[evs st'] r].
    unfold events, ending in *. cbn [fst snd] in *. destruct IH as [I1 I2].
    rewrite attempts_app, saves_app, log_output_app.
    destruct (failed_block_readers dist env e (message env e) true) as (-> & -> & ->).
    cbn [app length replicate].
    split; [by f_equal|]. intros Hr. rewrite (I2 Hr). lia.
  - split; [done|]. by unfold ending.
  - specialize (IH (bump_sent st)).
    destruct (send_loop w env dist l _) as [[evs st'] r].
    unfold events, ending in *. cbn [fst snd] in *. destruct IH as [I1 I2].
    rewrite attempts_app, saves_app, log_output_app.
    destruct (failed_block_readers dist env e (message env e) false) as (-> & -> & ->).
    cbn [app length replicate].
    split; [by f_equal|]. intros Hr. rewrite (I2 Hr). lia.
  - split; [done|]. by unfold ending.
Qed.

(** X11. Without [--verbose], a pass that finds and reads the watermark
    logs nothing but the line "Could not send errata notification email",
    once for every entry that was not both sent and saved (the line does
    not say which); an entry that was sent and saved leaves no line, so a
    pass in which all goes well is silent.  With [--verbose] every record
    is logged. *)
Theorem quiet_log_counts_failures (w : World) (env : Env) (dist url : string)
    (data : list Errata) (wm : Z) (st : State) :
  DISTRIBUTIONS_ERRATA_URL !! dist = Some url ->
  urlopen_json w url = Some data ->
  data <> [] ->
  visible env (fs st) dist ->
  watermark env (fs st) dist = Some wm ->
  let x := process w env dist st in
  log_output false (events x)
  = replicate (length (log_output false (events x)))
      (ERROR, "Could not send errata notification email", []) /\
  (ending x <> Killed ->
   length (attempts dist (events x))
   = (length (saves dist (events x)) + length (log_output false (events x)))%nat) /\
  (forall l fmt args, Log l fmt args ∈ events x -> (l, fmt, args) ∈ log_output true (events x)).
Proof.
  intros Hu Hd Hne Hv Hw x. subst x.
  destruct (sorted_desc data) as [|newest rest] eqn:Hs.
  { by apply sorted_desc_nil in Hs. }
  split_and!.
  - rewrite (process_ready w env dist url data newest rest wm) by done. cbv zeta.
    rewrite events_mk.
    destruct (send_loop_log w env dist (todo wm data) st) as [L1 _].
    change (preamble dist url ++ log_found dist (length (todo wm data)) ::
              events (send_loop w env dist (todo wm data) st))
      with ((preamble dist url ++ [log_found dist (length (todo wm data))]) ++
              events (send_loop w env dist (todo wm data) st)).
    rewrite log_output_app. exact L1.
  - intros Hk.
    destruct (pass_attempts_all w env dist url data wm st) as [Hr _]; auto.
    revert Hr.
    rewrite (process_ready w env dist url data newest rest wm) by done. cbv zeta.
    rewrite events_mk, ending_mk. intros Hr.
    destruct (send_loop_log w env dist (todo wm data) st) as [_ L2].
    specialize (L2 Hr).
    change (preamble dist url ++ log_found dist (length (todo wm data)) ::
              events (send_loop w env dist (todo wm data) st))
      with ((preamble dist url ++ [log_found dist (length (todo wm data))]) ++
              events (send_loop w env dist (todo wm data) st)).
    rewrite attempts_app, saves_app, log_output_app. exact L2.
  - intros l fmt args Hin. unfold log_output. apply list_elem_of_omap.
    exists (Log l fmt args). split; [done|]. by destruct l.
Qed.

Lemma quiet_log_counts_failures_witness :
  log_output false
    (events (process (Scenario.first_send_raises [Scenario.e100; Scenario.e200])
               Scenario.home Scenario.d8
               (start (Scenario.with_watermark "/opt/errata" "50"))))
  = [(ERROR, "Could not send errata notification email", [])].
Proof.
  destruct (quiet_log_counts_failures
              (Scenario.first_send_raises [Scenario.e100; Scenario.e200])
              Scenario.home Scenario.d8 Scenario.url8
              [Scenario.e100; Scenario.e200] 50
              (start (Scenario.with_watermark "/opt/errata" "50")))
    as (H1 & _).
  - reflexivity.
  - reflexivity.
  - discriminate.
  - eexists. reflexivity.
  - reflexivity.
  - rewrite H1. vm_compute. reflexivity.
Defined.

(** ** The files a run touches *)





(** ** After the first run *)



(** ** The release date *)

Lemma all_from_spec P n : forall z x,
  all_from P z n = true -> z <= x < z + Z.of_nat n -> P x = true.
Proof.
  induction n as [|n IH]; intros z x H Hx; [lia|].
  cbn [all_from] in H. apply andb_prop in H as [H1 H2].
  destruct (decide (x = z)) as [->|Hne]; [done|].
  apply (IH (z + 1)); [done | lia].
Qed.

Lemma civil_doe_bounds doe :
  0 <= doe < 146097 ->
  let yoe := (doe - doe / 1460 + doe / 36524 - doe / 146096) / 365 in
  let doy := doe - (365 * yoe + yoe / 4 - yoe / 100) in
  let mp := (5 * doy + 2) / 153 in
  let d := doy - (153 * mp + 2) / 5 + 1 in
  0 <= yoe <= 399 /\ 0 <= doy <= 365 /\ 0 <= mp <= 11 /\ 1 <= d <= 31.
Proof.
  intros H yoe doy mp d.
  assert (0 <= yoe <= 399) as Hyoe by (subst yoe; Z.div_mod_to_equations; lia).
  assert (0 <= doy <= 365) as Hdoy by (subst doy yoe; Z.div_mod_to_equations; lia).
  assert (0 <= mp <= 11) as Hmp by (subst mp; Z.div_mod_to_equations; lia).
  assert (1 <= d <= 31) as Hd by (subst d mp; Z.div_mod_to_equations; lia).
  done.
Qed.

Lemma civil_round_trip n :
  let '(y, m, d) := Py.civil_from_days n in
  1 <= m <= 12 /\ 1 <= d <= 31 /\ days_from_civil (y, m, d) = n.
Proof.
  unfold Py.civil_from_days. cbv zeta.
  set (z := n + 719468). set (era := z / 146097). set (doe := z - era * 146097).
  assert (0 <= doe < 146097) as Hdoe by (subst doe era; Z.div_mod_to_equations; lia).
  destruct (civil_doe_bounds doe Hdoe) as (Hyoe & Hdoy & Hmp & Hd). cbv zeta in Hyoe, Hdoy, Hmp, Hd.
  set (yoe := (doe - doe / 1460 + doe / 36524 - doe / 146096) / 365) in *.
  set (doy := doe - (365 * yoe + yoe / 4 - yoe / 100)) in *.
  set (mp := (5 * doy + 2) / 153) in *.
  set (d := doy - (153 * mp + 2) / 5 + 1) in *.
  unfold days_from_civil.
  destruct (Z.ltb_spec mp 10) as [Hlt | Hge].
  - destruct (Z.leb_spec (mp + 3) 2) as [?|_]; [lia|].
    split; [lia|]. split; [lia|].
    replace (mp + 3 - 3) with mp by lia. rewrite Z.add_0_r.
    replace ((yoe + era * 400) / 400) with era by (Z.div_mod_to_equations; lia).
    replace (yoe + era * 400 - era * 400) with yoe by lia.
    subst d doy z doe. lia.
  - destruct (Z.leb_spec (mp - 9) 2) as [_|?]; [|lia].
    split; [lia|]. split; [lia|].
    replace (mp - 9 + 9) with mp by lia.
    replace (yoe + era * 400 + 1 - 1) with (yoe + era * 400) by lia.
    replace ((yoe + era * 400) / 400) with era by (Z.div_mod_to_equations; lia).
    replace (yoe + era * 400 - era * 400) with yoe by lia.
    subst d doy z doe. lia.
Qed.

Lemma civil_leap_day doe :
  0 <= doe < 146097 ->
  let yoe := (doe - doe / 1460 + doe / 36524 - doe / 146096) / 365 in
  doe - (365 * yoe + yoe / 4 - yoe / 100) = 365 ->
  (yoe + 1) mod 4 = 0 /\ ((yoe + 1) mod 100 = 0 -> yoe = 399).
Proof.
  intros H yoe E. subst yoe. split; [|intros E100]; Z.div_mod_to_equations; lia.
Qed.

Lemma civil_day_valid n :
  let '(y, m, d) := Py.civil_from_days n in d <= days_in_month y m.
Proof.
  unfold Py.civil_from_days. cbv zeta.
  set (z := n + 719468). set (era := z / 146097). set (doe := z - era * 146097).
  assert (0 <= doe < 146097) as Hdoe by (subst doe era; Z.div_mod_to_equations; lia).
  destruct (civil_doe_bounds doe Hdoe) as (Hyoe & Hdoy & Hmp & Hd).
  pose proof (civil_leap_day doe Hdoe) as Hleap.
  cbv zeta in Hyoe, Hdoy, Hmp, Hd, Hleap.
  set (yoe := (doe - doe / 1460 + doe / 36524 - doe / 146096) / 365) in *.
  set (doy := doe - (365 * yoe + yoe / 4 - yoe / 100)) in *.
  set (mp := (5 * doy + 2) / 153) in *.
  set (d := doy - (153 * mp + 2) / 5 + 1) in *.
  unfold days_in_month.
  destruct (Z.ltb_spec mp 10) as [Hlt | Hge].
  - destruct (Z.eqb_spec (mp + 3) 2) as [?|_]; [lia|].
    destruct (Z.eqb_spec (mp + 3) 4) as [E|_]; cbn [orb].
    { subst d mp. Z.div_mod_to_equations. lia. }
    destruct (Z.eqb_spec (mp + 3) 6) as [E|_]; cbn [orb].
    { subst d mp. Z.div_mod_to_equations. lia. }
    destruct (Z.eqb_spec (mp + 3) 9) as [E|_]; cbn [orb].
    { subst d mp. Z.div_mod_to_equations. lia. }
    destruct (Z.eqb_spec (mp + 3) 11) as [E|_]; cbn [orb].
    { subst d mp. Z.div_mod_to_equations. lia. }
    lia.
  - destruct (Z.leb_spec (mp - 9) 2) as [_|?]; [|lia].
    destruct (Z.eqb_spec (mp - 9) 2) as [E|E].
    + assert (mp = 11) as Emp by lia.
      assert (d = doy - 336) as Ed.
      { subst d. rewrite Emp. replace ((153 * 11 + 2) / 5) with 337 by reflexivity. lia. }
      destruct (is_leap (yoe + era * 400 + 1)) eqn:Hb; [lia|].
      destruct (decide (doy = 365)) as [E365|]; [|lia].
      destruct (Hleap E365) as [H4 H100].
      unfold is_leap in Hb.
      apply orb_false_iff in Hb as [Hb1 Hb2]. apply Z.eqb_neq in Hb2.
      apply andb_false_iff in Hb1 as [Hb1 | Hb1].
      * apply Z.eqb_neq in Hb1. exfalso. clear -Hb1 H4. Z.div_mod_to_equations. lia.
      * apply negb_false_iff, Z.eqb_eq in Hb1. exfalso.
        assert ((yoe + 1) mod 100 = 0) as E100 by (clear -Hb1; Z.div_mod_to_equations; lia).
        specialize (H100 E100). clear -Hb2 H100. Z.div_mod_to_equations. lia.
    + destruct (Z.eqb_spec (mp - 9) 4) as [?|_]; [lia|].
      destruct (Z.eqb_spec (mp - 9) 6) as [?|_]; [lia|].
      destruct (Z.eqb_spec (mp - 9) 9) as [?|_]; [lia|].
      destruct (Z.eqb_spec (mp - 9) 11) as [?|_]; [lia|].
      cbn [orb]. lia.
Qed.

Lemma civil_year_bounds n :
  0 <= n <= 2932896 ->
  let '(y, m, d) := Py.civil_from_days n in 1970 <= y <= 9999.
Proof.
  intros Hn. unfold Py.civil_from_days. cbv zeta.
  set (z := n + 719468). set (era := z / 146097). set (doe := z - era * 146097).
  assert (0 <= doe < 146097) as Hdoe by (subst doe era; Z.div_mod_to_equations; lia).
  assert (4 <= era <= 24) as Hera by (subst era z; Z.div_mod_to_equations; lia).
  destruct (civil_doe_bounds doe Hdoe) as (Hyoe & Hdoy & Hmp & Hd).
  cbv zeta in Hyoe, Hdoy, Hmp, Hd.
  assert (era = 4 -> 135080 <= doe) as Hlow by (subst doe era z; Z.div_mod_to_equations; lia).
  assert (era = 24 -> doe <= 146036) as Hhigh by (subst doe era z; Z.div_mod_to_equations; lia).
  clearbody doe. clearbody era. clear z.
  set (yoe := (doe - doe / 1460 + doe / 36524 - doe / 146096) / 365) in *.
  set (doy := doe - (365 * yoe + yoe / 4 - yoe / 100)) in *.
  set (mp := (5 * doy + 2) / 153) in *.
  assert (era = 4 -> 369 <= yoe /\ (yoe = 369 -> 10 <= mp)) as Hl.
  { intros E. specialize (Hlow E). subst mp doy yoe. split; [|intros E'];
      Z.div_mod_to_equations; lia. }
  assert (era = 24 -> yoe = 399 -> mp < 10) as Hh.
  { intros E E'. specialize (Hhigh E). subst mp doy. rewrite E'. subst yoe.
    Z.div_mod_to_equations. lia. }
  destruct (Z.ltb_spec mp 10) as [Hlt | Hge].
  - destruct (Z.leb_spec (mp + 3) 2) as [?|_]; [lia|]. lia.
  - destruct (Z.leb_spec (mp - 9) 2) as [_|?]; [|lia]. lia.
Qed.

Lemma year_text y :
  1000 <= y <= 9999 -> String.length (Py.str y) = 4%nat.
Proof.
  intros Hy.
  assert (all_from (fun y => (String.length (Py.str y) =? 4)%nat) 1000 (Z.to_nat 9000) = true) as H
    by (vm_compute; reflexivity).
  apply Nat.eqb_eq. apply (all_from_spec _ _ _ _ H). lia.
Qed.

Lemma two_digits_text m :
  0 <= m <= 99 ->
  String.length (Py.two_digits m) = 2%nat /\ Py.int (Py.two_digits m) = Some m.
Proof.
  intros Hm.
  assert (all_from (fun m => (String.length (Py.two_digits m) =? 2)%nat &&
                             match Py.int (Py.two_digits m) with
                             | Some z => z =? m
                             | None => false
                             end) 0 (Z.to_nat 100) = true) as H
    by (vm_compute; reflexivity).
  assert (0 <= m < 0 + Z.of_nat (Z.to_nat 100)) as Hr by lia.
  apply (all_from_spec _ _ _ m H) in Hr. cbv beta in Hr.
  apply andb_prop in Hr as [H1 H2].
  split; [by apply Nat.eqb_eq|].
  destruct (Py.int (Py.two_digits m)) as [z|]; [|done]. by apply Z.eqb_eq in H2 as ->.
Qed.

Lemma substring_take (a b : string) :
  String.substring 0 (String.length a) (a +:+ b) = a.
Proof.
  induction a as [|c a IH]; cbn [String.length].
  - change ("" +:+ b) with b. by destruct b.
  - change (String c a +:+ b) with (String c (a +:+ b)). cbn [String.substring]. by rewrite IH.
Qed.

Lemma substring_skip (a b : string) (n : nat) :
  String.substring (String.length a) n (a +:+ b) = String.substring 0 n b.
Proof.
  induction a as [|c a IH]; cbn [String.length].
  - done.
  - change (String c a +:+ b) with (String c (a +:+ b)). cbn [String.substring]. by rewrite IH.
Qed.

Lemma substring_all (a : string) : String.substring 0 (String.length a) a = a.
Proof. induction a as [|c a IH]; [done|]. cbn. by rewrite IH. Qed.

Lemma date_fields_strftime y m d :
  1000 <= y <= 9999 -> 0 <= m <= 99 -> 0 <= d <= 99 ->
  String.length (Py.strftime_Ymd (y, m, d)) = 10%nat /\
  date_fields (Py.strftime_Ymd (y, m, d)) = Some (y, m, d).
Proof.
  intros Hy Hm Hd.
  pose proof (year_text y Hy) as Ly.
  destruct (two_digits_text m Hm) as [Lm Im]. destruct (two_digits_text d Hd) as [Ld Id].
  unfold Py.strftime_Ymd. split.
  - rewrite !length_app_string, Ly, Lm, Ld. reflexivity.
  - unfold date_fields.
    assert (String.substring 0 4 (Py.str y +:+ "-" +:+ Py.two_digits m +:+ "-" +:+ Py.two_digits d)
            = Py.str y) as ->.
    { rewrite <- Ly at 1. apply substring_take. }
    assert (String.substring 5 2 (Py.str y +:+ "-" +:+ Py.two_digits m +:+ "-" +:+ Py.two_digits d)
            = Py.two_digits m) as ->.
    { rewrite <- (app_string_assoc (Py.str y) "-").
      replace 5%nat with (String.length (Py.str y +:+ "-"))
        by (rewrite length_app_string, Ly; reflexivity).
      rewrite substring_skip. rewrite <- Lm. apply substring_take. }
    assert (String.substring 8 2 (Py.str y +:+ "-" +:+ Py.two_digits m +:+ "-" +:+ Py.two_digits d)
            = Py.two_digits d) as ->.
    { rewrite <- (app_string_assoc (Py.two_digits m) "-").
      rewrite <- (app_string_assoc (Py.str y) "-").
      rewrite <- (app_string_assoc (Py.str y +:+ "-")).
      replace 8%nat with (String.length ((Py.str y +:+ "-") +:+ Py.two_digits m +:+ "-"))
        by (rewrite !length_app_string, Ly, Lm; reflexivity).
      rewrite substring_skip. rewrite <- Ld. apply substring_all. }
    rewrite int_of_str, Im, Id. reflexivity.
Qed.

Lemma ts_days ts : 0 <= ts < TS_END -> 0 <= ts / 86400000 <= 2932896.
Proof. unfold TS_END. intros H. Z.div_mod_to_equations. lia. Qed.

Example ts_to_date_leap_day : ts_to_date 1709164800000 = "2024-02-29".
Proof. reflexivity. Qed.

(** X14. For a timestamp from the epoch to the end of the year 9999,
    [ts_to_date] gives ten characters, [YYYY-MM-DD] with month and day
    padded to two digits, and they name a date of the calendar: the month
    is between 1 and 12, the day between 1 and the length of that month in
    that year, and the date is as many days after 1970-01-01 as there are
    whole days of 86400000 milliseconds in the timestamp. *)
Theorem ts_to_date_is_a_calendar_date (ts : Z) :
  0 <= ts < TS_END ->
  exists y m d,
    ts_to_date ts = Py.str y +:+ "-" +:+ Py.two_digits m +:+ "-" +:+ Py.two_digits d /\
    String.length (ts_to_date ts) = 10%nat /\
    1970 <= y <= 9999 /\ 1 <= m <= 12 /\ 1 <= d <= days_in_month y m /\
    days_from_civil (y, m, d) = ts / 86400000.
Proof.
  intros Hts. pose proof (ts_days ts Hts) as Hn.
  unfold ts_to_date.
  pose proof (civil_round_trip (ts / 86400000)) as H1.
  pose proof (civil_day_valid (ts / 86400000)) as H2.
  pose proof (civil_year_bounds (ts / 86400000) Hn) as H3.
  destruct (Py.civil_from_days (ts / 86400000)) as [[y m] d].
  destruct H1 as (Hm & Hd & Hrt).
  exists y, m, d. split; [reflexivity|].
  split; [apply date_fields_strftime; lia|].
  split_and!; try done; lia.
Qed.

Lemma ts_to_date_is_a_calendar_date_witness :
  exists y m d,
    ts_to_date 1709164800000
    = Py.str y +:+ "-" +:+ Py.two_digits m +:+ "-" +:+ Py.two_digits d /\
    String.length (ts_to_date 1709164800000) = 10%nat /\
    1970 <= y <= 9999 /\ 1 <= m <= 12 /\ 1 <= d <= days_in_month y m /\
    days_from_civil (y, m, d) = 1709164800000 / 86400000.
Proof. apply (ts_to_date_is_a_calendar_date 1709164800000). unfold TS_END. lia. Defined.

(** X15. The text [ts_to_date] gives names the UTC day and nothing
    more: reading the year, month and day back from it gives the number of
    whole days in the timestamp, so two timestamps get the same text
    exactly when they fall on the same day; the time of day is dropped. *)
Theorem ts_to_date_names_the_day (t1 t2 : Z) :
  0 <= t1 < TS_END -> 0 <= t2 < TS_END ->
  day_of_date (ts_to_date t1) = Some (t1 / 86400000) /\
  (ts_to_date t1 = ts_to_date t2 <-> t1 / 86400000 = t2 / 86400000).
Proof.
  assert (forall ts, 0 <= ts < TS_END ->
            day_of_date (ts_to_date ts) = Some (ts / 86400000)) as Hday.
  { intros ts Hts. pose proof (ts_days ts Hts) as Hn.
    unfold ts_to_date, day_of_date.
    pose proof (civil_round_trip (ts / 86400000)) as H1.
    pose proof (civil_year_bounds (ts / 86400000) Hn) as H3.
    destruct (Py.civil_from_days (ts / 86400000)) as [[y m] d].
    destruct H1 as (Hm & Hd & Hrt).
    destruct (date_fields_strftime y m d) as [_ ->]; try lia.
    change (Some (days_from_civil (y, m, d)) = Some (ts / 86400000)). by rewrite Hrt. }
  intros H1 H2. split; [by apply Hday|]. split.
  - intros E. pose proof (Hday t1 H1) as E1. rewrite E, (Hday t2 H2) in E1. congruence.
  - intros E. unfold ts_to_date. by rewrite E.
Qed.

Lemma ts_to_date_names_the_day_witness :
  day_of_date (ts_to_date 1709251199999) = Some 19782 /\
  ts_to_date 1709164800000 = ts_to_date 1709251199999.
Proof.
  destruct (ts_to_date_names_the_day 1709164800000 1709251199999) as [H1 H2].
  - unfold TS_END. lia.
  - unfold TS_END. lia.
  - split; [|apply H2; reflexivity].
    destruct (ts_to_date_names_the_day 1709251199999 1709251199999) as [H3 _].
    + unfold TS_END. lia.
    + unfold TS_END. lia.
    + rewrite H3. reflexivity.
Defined.

(** ** Start-up *)


(** ** A distribution named more than once *)

(** X17. Handling the list of distributions a second time in the same
    run adds no message: when every send and every write completes, the
    run over the list given twice delivers what the run over the list
    given once delivers, and calls [send_message] for the same entries. *)
Theorem list_given_twice_sends_once (w : World) (env : Env) (ds : list string) (st : State) :
  (forall n, smtp_outcome w n = Done) ->
  (forall n, write_outcome w n = Done) ->
  (forall d, attempts d (events (run w env (ds ++ ds) st))
             = attempts d (events (run w env ds st))) /\
  delivered (events (run w env (ds ++ ds) st)) = delivered (events (run w env ds st)).
Proof.
  intros Hs Hw.
  destruct (run_readers w env (ds ++ ds) st) as (R1 & _ & R3 & _).
  destruct (run_readers w env ds st) as (S1 & _ & S3 & _).
  assert (forall d', attempts d' (events (passes w env ds (passes w env ds st).1.2)) = [])
    as Hnone.
  { apply (calm_passes (urlopen_json w) env w (fun _ => eq_refl)).
    apply (complete_passes (urlopen_json w) env w (fun _ => eq_refl)).
    intros n. by split. }
  assert (events (passes w env (ds ++ ds) st) = events (passes w env ds st) \/
          events (passes w env (ds ++ ds) st)
          = events (passes w env ds st) ++ events (passes w env ds (passes w env ds st).1.2))
    as Hev.
  { unfold passes. rewrite for_each_app. unfold bind, events.
    destruct (for_each ds (process w env) st) as [[e1 s1] [[]| |]]; cbn [fst snd];
      [|by left|by left].
    right. by destruct (for_each ds (process w env) s1) as [[e2 s2] r2]. }
  split.
  - intros d. rewrite R1, S1. destruct Hev as [-> | ->]; [done|].
    by rewrite attempts_app, Hnone, app_nil_r.
  - rewrite R3, S3. destruct Hev as [-> | ->]; [done|].
    by rewrite delivered_app, (no_attempts_no_delivery _ Hnone), app_nil_r.
Qed.

Lemma list_given_twice_sends_once_witness :
  delivered
    (events (run (Scenario.fine [Scenario.e100; Scenario.e200]) Scenario.home
               ([Scenario.d8] ++ [Scenario.d8])
               (start (Scenario.with_watermark "/opt/errata" "50"))))
  = delivered
      (events (run (Scenario.fine [Scenario.e100; Scenario.e200]) Scenario.home
                 [Scenario.d8] (start (Scenario.with_watermark "/opt/errata" "50")))).
Proof.
  apply (list_given_twice_sends_once
           (Scenario.fine [Scenario.e100; Scenario.e200]) Scenario.home [Scenario.d8]
           (start (Scenario.with_watermark "/opt/errata" "50"))).
  - reflexivity.
  - reflexivity.
Defined.
